(** * Snowfun Nepal tracker: authentication and session lifecycle

    A shallow embedding of the authentication core of the backend:
    the OTP controller (in-memory ledger, phone normalisation, OTP login),
    the auth controller (register, login, token refresh, password change,
    password reset), the route validators, the [User] entity's password
    hook, and the two middlewares (JWT authentication and RBAC).

    Conventions of the model.
    - Module-level mutable state ([otpStore]) and the database are passed
      explicitly: a handler takes the state before and returns the state
      after together with what it sent.
    - Sources of non-determinism are arguments: [Date.now()] is [now]
      (milliseconds), [Math.random()] is [rand], the bcrypt salt is
      [salt], the UUID the database generates is [fresh_id].
    - A JavaScript number that is not an integer is the rational it
      denotes, and an arithmetic operation on such numbers is the exact
      operation followed by [round64], the rounding of IEEE 754 binary64
      to the nearest number, ties to even; [Math.random()] returns a
      binary64 number in [0,1).
    - A string is the sequence of bytes of its UTF-8 form.
    - A JWT is symbolic: the claim set, the key it was signed under and
      its [iat]/[exp] stamps; any other text is [Opaque].
    - [res.status(n).json(b)] is [Respond n b]; [next(err)] is [NextError].
    - A request body field a handler requires is a string (a request
      that omits it is validated like the empty string); a field a
      handler tests for presence, or a validator treats as optional, is
      an [option].
    - The libraries are modelled by what this program uses of them:
      TypeORM's [findOne] is the first matching row, [save] runs the
      entity hook and then writes; bcrypt and validator.js's [isEmail]
      and [isMobilePhone] are parameters ([Bcrypt], [ValidatorJs]). *)

From Stdlib Require Import ZArith QArith Qround Qpower Qabs.
From Stdlib Require Import String Ascii List Lia Lqa.
From stdpp Require Import gmap strings pretty.

Local Open Scope string_scope.
Local Open Scope Z_scope.

(* ================================================================== *)
(** * JavaScript values, JSON bodies, handler outcomes                 *)
(* ================================================================== *)

Inductive JsVal :=
  | JUndefined
  | JString (s : string)
  | JNumber (n : Z).

(** ToBoolean: [undefined], the empty string and [0] are falsy. *)
Definition truthy (v : JsVal) : bool :=
  match v with
  | JUndefined => false
  | JString s => negb (String.eqb s "")
  | JNumber n => negb (Z.eqb n 0)
  end.

(** A body field or environment variable: a string, or absent. *)
Definition of_field (o : option string) : JsVal :=
  match o with Some s => JString s | None => JUndefined end.

Definition truthy_field (o : option string) : bool := truthy (of_field o).

(** [a || b] on two optional strings. *)
Definition js_or (a b : option string) : option string :=
  if truthy_field a then a else b.

(** Strict equality [===] on the values above. *)
Definition strict_eqb (a b : JsVal) : bool :=
  match a, b with
  | JUndefined, JUndefined => true
  | JString s, JString t => String.eqb s t
  | JNumber n, JNumber m => Z.eqb n m
  | _, _ => false
  end.

(** [arr.includes(v)] for an array of strings. *)
Definition includes (arr : list string) (v : JsVal) : bool :=
  existsb (fun s => strict_eqb (JString s) v) arr.

(** [s.indexOf(pat)]: position of the first occurrence, or -1. *)
Definition indexOf (s pat : string) : Z :=
  match String.index 0 pat s with
  | Some n => Z.of_nat n
  | None => -1
  end.

(** [n.toString()] for an integer-valued number. *)
Definition toString (n : Z) : string := pretty n.

(** Errors that reach a [catch]. *)
Inductive Exn :=
  | JsonWebTokenError (msg : string)
  | TokenExpiredError
  | TypeError (msg : string)
  | QueryFailedError (msg : string)
  | Error (msg : string).

(** [error.name] *)
Definition exn_name (e : Exn) : string :=
  match e with
  | JsonWebTokenError _ => "JsonWebTokenError"
  | TokenExpiredError => "TokenExpiredError"
  | TypeError _ => "TypeError"
  | QueryFailedError _ => "QueryFailedError"
  | Error _ => "Error"
  end.

(* ================================================================== *)
(** * jsonwebtoken (symbolic)                                          *)
(* ================================================================== *)

(** The payload objects this program signs: [{ id }] or [{ id, role }].
    A property whose value is [undefined] is dropped by JSON, so an
    absent role and [role: undefined] coincide. *)
Record Claims := { claim_id : string; claim_role : JsVal }.

Inductive Token :=
  | Opaque (s : string)
  | Signed (payload : Claims) (key : string) (iat exp : Z).

(** [expiresIn: '1h'] and ['7d'], in seconds. *)
Definition one_hour : Z := 3600.
Definition seven_days : Z := 7 * 24 * 3600.

(** [jwt.sign(payload, secret, { expiresIn })]; [None] when it throws
    ("secretOrPrivateKey must have a value"). *)
Definition jwt_sign (payload : Claims) (secret : option string)
    (expiresIn : Z) (now : Z) : option Token :=
  match secret with
  | Some k =>
      if String.eqb k "" then None
      else let iat := now / 1000 in
           Some (Signed payload k iat (iat + expiresIn))
  | None => None
  end.

(** [jwt.verify(token, secret)]: the payload, or the error thrown. *)
Definition jwt_verify (t : Token) (secret : option string) (now : Z)
    : Exn + Claims :=
  match t with
  | Opaque _ => inl (JsonWebTokenError "jwt malformed")
  | Signed payload key iat exp =>
      match secret with
      | None => inl (JsonWebTokenError "secret or public key must be provided")
      | Some k =>
          if String.eqb k "" then
            inl (JsonWebTokenError "secret or public key must be provided")
          else if negb (String.eqb k key) then
            inl (JsonWebTokenError "invalid signature")
          else if exp <=? now / 1000 then inl TokenExpiredError
          else inr payload
      end
  end.

(** The claim set a token carries ([jwt.decode]). *)
Definition token_claims (t : Token) : option Claims :=
  match t with
  | Opaque _ => None
  | Signed payload _ _ _ => Some payload
  end.

(** A token sent by a client is falsy when it is the empty text. *)
Definition truthy_token (t : Token) : bool :=
  match t with
  | Opaque s => negb (String.eqb s "")
  | Signed _ _ _ _ => true
  end.

(** JSON response bodies. *)
#[local] Unset Elimination Schemes.
Inductive json :=
  | JNull
  | JBool (b : bool)
  | JNum (n : Z)
  | JStr (s : string)
  | JTok (t : Token)
  | JArr (items : list json)
  | JObj (fields : list (string * json)).
#[local] Set Elimination Schemes.

Abbreviation Body := (list (string * json)).

Inductive Outcome :=
  | Respond (status : Z) (body : Body)
  | NextError (e : Exn).

(** [process.env] *)
Record Env := {
  JWT_SECRET : option string;
  JWT_REFRESH_SECRET : option string;
  JWT_RESET_SECRET : option string;
  NODE_ENV : option string;
  SMS_GATEWAY_URL : option string;
  SMS_API_KEY : option string
}.

Definition is_production (env : Env) : bool :=
  strict_eqb (of_field (NODE_ENV env)) (JString "production").

(* ================================================================== *)
(** * Numbers: IEEE 754 binary64                                     *)
(* ================================================================== *)

(** [floor (log2 |x|)] for a non-zero [x]: the [e] with
    [2^e <= |x| < 2^(e+1)]. *)
Definition Qlog2 (x : Q) : Z :=
  let e := Z.log2 (Z.abs (Qnum x)) - Z.log2 (Zpos (Qden x)) in
  if Qle_bool (2 ^ e) (Qabs x) then e else e - 1.

(** The integer nearest to [t], the even one of the two when [t] is
    halfway between them. *)
Definition round_half_even (t : Q) : Z :=
  let f := Qfloor t in
  match (t - inject_Z f ?= 1 # 2)%Q with
  | Lt => f
  | Gt => f + 1
  | Eq => if Z.even f then f else f + 1
  end.

(** The exponent of the unit in the last place of the binary64 numbers
    around [x]: 53 significant bits, and nothing finer than the
    subnormal numbers, the multiples of [2^-1074]. *)
Definition binary64_ulp_exponent (x : Q) : Z :=
  Z.max (Qlog2 x - 52) (-1074).

(** The binary64 number nearest to [x], ties to even (for [x] within
    the range of the finite binary64 numbers, which the numbers of this
    program are). *)
Definition round64 (x : Q) : Q :=
  let k := binary64_ulp_exponent x in
  (inject_Z (round_half_even (x / 2 ^ k)) * 2 ^ k)%Q.

(** [x] is a binary64 number. *)
Definition is_binary64 (x : Q) : Prop := (round64 x == x)%Q.

(* ================================================================== *)
(** * OTP controller: the ledger                                       *)
(* ================================================================== *)

(** One value of [otpStore]: [{ otp, expiresAt }]. *)
Record OtpEntry := { otp : string; expiresAt : Z }.

(** [otpStore], a [Map] keyed by the formatted phone number. *)
Abbreviation OtpStore := (gmap string OtpEntry).

(** [Math.floor(100000 + Math.random() * 900000)]: the product and the
    sum are binary64 operations; [Math.floor] is exact. *)
Definition generateOTP_number (rand : Q) : Z :=
  Qfloor (round64 (100000 + round64 (rand * 900000)))%Q.

(** [generateOTP]: the number above, [.toString()]. *)
Definition generateOTP (rand : Q) : string :=
  toString (generateOTP_number rand).

(** [Math.random()] returns a binary64 number in [0, 1). *)
Definition is_random (rand : Q) : Prop :=
  is_binary64 rand /\ (0 <= rand)%Q /\ (rand < 1)%Q.

Arguments round64 : simpl never.
Arguments generateOTP_number : simpl never.
Arguments generateOTP : simpl never.

Definition is_digit (c : ascii) : bool :=
  (48 <=? Z.of_nat (nat_of_ascii c)) && (Z.of_nat (nat_of_ascii c) <=? 57).

Definition is_letter (c : ascii) : bool :=
  let n := Z.of_nat (nat_of_ascii c) in
  ((65 <=? n) && (n <=? 90)) || ((97 <=? n) && (n <=? 122)).

Fixpoint string_forall (p : ascii -> bool) (s : string) : bool :=
  match s with
  | EmptyString => true
  | String c s' => p c && string_forall p s'
  end.

Fixpoint string_exists (p : ascii -> bool) (s : string) : bool :=
  match s with
  | EmptyString => false
  | String c s' => p c || string_exists p s'
  end.

(** [s.replace(/\D/g, '')] *)
Fixpoint remove_non_digits (s : string) : string :=
  match s with
  | EmptyString => EmptyString
  | String c s' =>
      if is_digit c then String c (remove_non_digits s')
      else remove_non_digits s'
  end.

(** [s.substring(1)] *)
Definition substring_from_1 (s : string) : string :=
  match s with
  | EmptyString => EmptyString
  | String _ s' => s'
  end.

Definition formatNepaliPhone (phone : string) : string :=
  let cleaned := remove_non_digits phone in
  if String.prefix "977" cleaned then "+" +:+ cleaned
  else if String.prefix "0" cleaned then "+977" +:+ substring_from_1 cleaned
  else if Nat.eqb (String.length cleaned) 10 then "+977" +:+ cleaned
  else phone.

Definition five_minutes : Z := 5 * 60 * 1000.

(** [storeOTP]: the write to the map. *)
Definition storeOTP (store : OtpStore) (phone code : string) (now : Z)
    : OtpStore :=
  <[phone := {| otp := code; expiresAt := now + five_minutes |}]> store.

(** The callback [storeOTP] hands to [setTimeout], run at time [now]. *)
Definition storeOTP_timeout (store : OtpStore) (phone : string) (now : Z)
    : OtpStore :=
  match store !! phone with
  | Some e => if expiresAt e <=? now then delete phone store else store
  | None => store
  end.

(** [verifyOTP]: the result and the map afterwards. *)
Definition verifyOTP (store : OtpStore) (phone code : string) (now : Z)
    : bool * OtpStore :=
  match store !! phone with
  | None => (false, store)
  | Some storedData =>
      if expiresAt storedData <=? now then (false, delete phone store)
      else if negb (String.eqb (otp storedData) code) then (false, store)
      else (true, delete phone store)
  end.

(** [sendOTPviaSMS]: [gateway] is what [axios.post] did, [None] when it
    threw, otherwise the response status. *)
Definition sendOTPviaSMS (env : Env) (gateway : option Z) : bool :=
  if negb (truthy_field (SMS_GATEWAY_URL env))
     || negb (truthy_field (SMS_API_KEY env)) then true
  else match gateway with
       | Some status => status =? 200
       | None => false
       end.

(* ================================================================== *)
(** * Route validators (express-validator over validator.js)           *)
(* ================================================================== *)

(** Library predicates that are not unfolded here. *)
Class ValidatorJs := {
  isEmail : string -> bool;
  isMobilePhone : string -> bool
}.

(** One validator of a chain: its message when it fails. *)
Definition check (ok : bool) (msg : string) : list string :=
  if ok then [] else [msg].

(** [.optional()]: the chain is skipped when the field is absent. *)
Definition optional (v : option string) (chain : string -> list string)
    : list string :=
  match v with
  | Some s => chain s
  | None => []
  end.

Definition notEmpty (s : string) : bool := negb (String.eqb s "").

(** A string is the sequence of bytes of its UTF-8 form. validator.js's
    [isLength] counts characters, not bytes: its [len] is
    [str.length - presentationSequences.length - surrogatePairs.length],
    the number of code points of the string less its variation
    selectors U+FE0E and U+FE0F. In UTF-8 a code point is one byte that
    is not a continuation byte [10xxxxxx], and the two selectors are
    the byte sequences EF B8 8E and EF B8 8F. *)
Definition is_continuation_byte (c : ascii) : bool :=
  (128 <=? Z.of_nat (nat_of_ascii c)) && (Z.of_nat (nat_of_ascii c) <=? 191).

Fixpoint code_points (s : string) : nat :=
  match s with
  | EmptyString => 0
  | String c s' =>
      if is_continuation_byte c then code_points s' else S (code_points s')
  end.

Definition is_presentation_selector (c1 c2 c3 : ascii) : bool :=
  (Z.of_nat (nat_of_ascii c1) =? 239)
  && (Z.of_nat (nat_of_ascii c2) =? 184)
  && ((Z.of_nat (nat_of_ascii c3) =? 142)
      || (Z.of_nat (nat_of_ascii c3) =? 143)).

Fixpoint presentationSequences (s : string) : nat :=
  match s with
  | EmptyString => 0
  | String c1 s' =>
      match s' with
      | String c2 (String c3 _) =>
          if is_presentation_selector c1 c2 c3
          then S (presentationSequences s')
          else presentationSequences s'
      | _ => presentationSequences s'
      end
  end.

(** [len] of [isLength]. *)
Definition isLength_len (s : string) : nat :=
  (code_points s - presentationSequences s)%nat.

(** [.isLength({ min })] and [.isLength({ min, max })] *)
Definition isLength_min (min : nat) (s : string) : bool :=
  Nat.leb min (isLength_len s).

Definition isLength (min max : nat) (s : string) : bool :=
  Nat.leb min (isLength_len s) && Nat.leb (isLength_len s) max.

(** [.matches(/[a-zA-Z]/)] and [.matches(/\d/)] *)
Definition matches_letter (s : string) : bool := string_exists is_letter s.
Definition matches_digit (s : string) : bool := string_exists is_digit s.

(** [[9][6-9]\d{8}$], anchored at the start of [s]. *)
Definition matches_local_number (s : string) : bool :=
  match s with
  | String c1 (String c2 rest) =>
      Ascii.eqb c1 "9"
      && ((54 <=? Z.of_nat (nat_of_ascii c2))
          && (Z.of_nat (nat_of_ascii c2) <=? 57))
      && Nat.eqb (String.length rest) 8
      && string_forall is_digit rest
  | _ => false
  end.

(** [s] without the prefix [p], when it has it. *)
Fixpoint strip_prefix (p s : string) : option string :=
  match p, s with
  | EmptyString, _ => Some s
  | String a p', String b s' =>
      if Ascii.eqb a b then strip_prefix p' s' else None
  | String _ _, EmptyString => None
  end.

(** [.matches(/^(\+977|977|0)?[9][6-9]\d{8}$/)] *)
Definition matches_nepali_phone (s : string) : bool :=
  existsb
    (fun p => match strip_prefix p s with
              | Some rest => matches_local_number rest
              | None => false
              end)
    ["+977"; "977"; "0"; ""].

(** The part of [s] before the first ['.'] and the part after it. *)
Fixpoint split_dot (s : string) : string * option string :=
  match s with
  | EmptyString => (EmptyString, None)
  | String c s' =>
      if Ascii.eqb c "." then (EmptyString, Some s')
      else let '(a, b) := split_dot s' in (String c a, b)
  end.

Definition nonempty_digits (s : string) : bool :=
  notEmpty s && string_forall is_digit s.

(** [.isNumeric()]: [/^[+-]?([0-9]*[.])?[0-9]+$/] *)
Definition isNumeric (s : string) : bool :=
  let unsigned :=
    match s with
    | String c s' =>
        if Ascii.eqb c "+" || Ascii.eqb c "-" then s' else s
    | EmptyString => s
    end in
  match split_dot unsigned with
  | (whole, None) => nonempty_digits whole
  | (whole, Some frac) => string_forall is_digit whole && nonempty_digits frac
  end.

(** The password chain shared by register and change-password:
    at least 8 characters, a letter and a digit. *)
Definition password_policy (s : string) : bool :=
  isLength_min 8 s && matches_letter s && matches_digit s.

(* ================================================================== *)
(** * Entities and the database                                        *)
(* ================================================================== *)

(** A [Role] entity. *)
Record Role := { role_id : Z; roleName : string }.

(** [role[prop]] on a loaded [Role] entity: the entity class declares
    [id] and [roleName] (stored in column [role_name]); the [users]
    relation is not loaded; any other property is [undefined]. *)
Definition Role_get (r : Role) (prop : string) : JsVal :=
  if String.eqb prop "id" then JNumber (role_id r)
  else if String.eqb prop "roleName" then JString (roleName r)
  else JUndefined.

(** [Role.ROLES] *)
Definition ROLES_ADMIN : Z := 1.
Definition ROLES_PSR : Z := 2.

(** A row of [users]. *)
Record User := {
  id : string;
  email : string;
  password_hash : string;
  fullName : string;
  phone : option string;
  roleId : Z
}.

(** [user[prop]] on a loaded [User] entity, for the scalar properties
    the entity class declares; any other property is [undefined]. *)
Definition User_get (u : User) (prop : string) : JsVal :=
  if String.eqb prop "id" then JString (id u)
  else if String.eqb prop "email" then JString (email u)
  else if String.eqb prop "fullName" then JString (fullName u)
  else if String.eqb prop "phone" then of_field (phone u)
  else if String.eqb prop "roleId" then JNumber (roleId u)
  else JUndefined.

Record Db := { users : list User; roles : list Role }.

(** [roleRepository.findOne({ where: { id } })] *)
Definition findRole (db : Db) (rid : Z) : option Role :=
  List.find (fun r => role_id r =? rid) (roles db).

(** [userRepository.findOne({ where: { email } })] and its siblings. *)
Definition findByEmail (db : Db) (e : string) : option User :=
  List.find (fun u => String.eqb (email u) e) (users db).

Definition findById (db : Db) (i : string) : option User :=
  List.find (fun u => String.eqb (id u) i) (users db).

Definition findByPhone (db : Db) (p : string) : option User :=
  List.find (fun u => strict_eqb (of_field (phone u)) (JString p)) (users db).

(** The [role] relation of a loaded user ([relations: ['role']]). *)
Definition roleOf (db : Db) (u : User) : option Role := findRole db (roleId u).

(** bcrypt: [hash(data, rounds)] with the salt it draws made explicit,
    and [compare(data, encrypted)]. *)
Class Bcrypt := {
  bcrypt_hash : string -> Z -> string -> string;
  bcrypt_compare : string -> string -> bool
}.

(** What [userRepository.create({...})] builds before it is saved. *)
Record UserDraft := {
  draft_email : option string;
  draft_password_hash : option string;
  draft_fullName : option string;
  draft_phone : option string;
  draft_role : option Role
}.

Section Persistence.
Context `{Bcrypt}.

(** The [@BeforeInsert]/[@BeforeUpdate] hook [hashPassword], on the
    value of [this.password_hash]. *)
Definition hashPassword (salt : string) (password_hash : option string)
    : option string :=
  match password_hash with
  | Some p =>
      if truthy (JString p) && negb (indexOf p "$2b$" =? 0)
      then Some (bcrypt_hash p 10 salt)
      else Some p
  | None => None
  end.

(** [save] of a new entity: the hook, then the INSERT, which the
    table refuses when a NOT NULL column has no value or the email is
    taken. *)
Definition save_new (db : Db) (d : UserDraft) (salt fresh_id : string)
    : Exn + (User * Db) :=
  match draft_email d, hashPassword salt (draft_password_hash d),
        draft_fullName d, draft_role d with
  | Some e, Some h, Some n, Some r =>
      match findByEmail db e with
      | Some _ => inl (QueryFailedError "duplicate key value")
      | None =>
          let u := {| id := fresh_id; email := e; password_hash := h;
                      fullName := n; phone := draft_phone d;
                      roleId := role_id r |} in
          inr (u, {| users := users db ++ [u]; roles := roles db |})
      end
  | _, _, _, _ => inl (QueryFailedError "null value in column")
  end.

(** [save] of a loaded entity whose [password_hash] was assigned:
    the hook, then the UPDATE of that row. *)
Definition save_password (db : Db) (uid : string) (assigned : string)
    (salt : string) : Db :=
  match hashPassword salt (Some assigned) with
  | Some h =>
      {| users :=
           map (fun u => if String.eqb (id u) uid
                         then {| id := id u; email := email u;
                                 password_hash := h;
                                 fullName := fullName u;
                                 phone := phone u; roleId := roleId u |}
                         else u) (users db);
         roles := roles db |}
  | None => db
  end.
End Persistence.

(* ================================================================== *)
(** * Responses                                                        *)
(* ================================================================== *)

(** One property of a JSON object; [undefined] is not serialised. *)
Definition prop (k : string) (v : JsVal) : Body :=
  match v with
  | JUndefined => []
  | JString s => [(k, JStr s)]
  | JNumber n => [(k, JNum n)]
  end.

(** [{ error, message }] *)
Definition error_body (error message : string) : Body :=
  [("error", JStr error); ("message", JStr message)].

(** [res.status(400).json({ errors: errors.array() })], keeping the
    message of every failed validator. *)
Definition validation_failed (errors : list string) : Outcome :=
  Respond 400 [("errors", JArr (map JStr errors))].

Record Tokens := { accessToken : Token; refreshToken : Token }.

(** [...tokens] *)
Definition spread_tokens (t : Tokens) : Body :=
  [("accessToken", JTok (accessToken t));
   ("refreshToken", JTok (refreshToken t))].

(** [generateTokens(user)], the same function in both controllers.
    [role] is [user.role]; reading [roleName] off [null] throws. *)
Definition generateTokens (env : Env) (uid : string) (role : option Role)
    (now : Z) : Exn + Tokens :=
  match role with
  | None => inl (TypeError "Cannot read properties of null")
  | Some r =>
      match jwt_sign {| claim_id := uid; claim_role := Role_get r "roleName" |}
                     (JWT_SECRET env) one_hour now with
      | None => inl (Error "secretOrPrivateKey must have a value")
      | Some access =>
          match jwt_sign {| claim_id := uid; claim_role := JUndefined |}
                         (js_or (JWT_REFRESH_SECRET env) (JWT_SECRET env))
                         seven_days now with
          | None => inl (Error "secretOrPrivateKey must have a value")
          | Some refresh =>
              inr {| accessToken := access; refreshToken := refresh |}
          end
      end
  end.

(** [user.role.roleName] inside a response object. *)
Definition role_name_prop (role : option Role) : Body :=
  match role with
  | Some r => prop "role" (Role_get r "roleName")
  | None => []
  end.

(* ================================================================== *)
(** * Auth controller                                                  *)
(* ================================================================== *)

Record RegisterBody := {
  reg_email : string;
  reg_password : string;
  reg_fullName : string;
  reg_phone : option string;
  reg_roleId : option Z
}.

Record LoginBody := { login_email : string; login_password : string }.

Record ChangePasswordBody := {
  currentPassword : string;
  newPassword : string
}.

Section AuthController.
Context `{Bcrypt} `{ValidatorJs}.

(** The chains of [POST /register]. *)
Definition validate_register (b : RegisterBody) : list string :=
  check (isEmail (reg_email b)) "Please provide a valid email address"
  ++ check (isLength_min 8 (reg_password b))
       "Password must be at least 8 characters long"
  ++ check (matches_letter (reg_password b))
       "Password must contain at least one letter"
  ++ check (matches_digit (reg_password b))
       "Password must contain at least one number"
  ++ check (notEmpty (reg_fullName b)) "Full name is required"
  ++ check (isLength 2 100 (reg_fullName b))
       "Full name must be between 2 and 100 characters"
  ++ optional (reg_phone b)
       (fun p => check (isMobilePhone p)
                   "Please provide a valid phone number")
  ++ match reg_roleId b with
     | Some r => check (1 <=? r) "Role ID must be a positive integer"
     | None => []
     end.

(** The chains of [POST /login]. *)
Definition validate_login (b : LoginBody) : list string :=
  check (isEmail (login_email b)) "Please provide a valid email address"
  ++ check (notEmpty (login_password b)) "Password is required".

(** The chains of [POST /change-password]. *)
Definition validate_changePassword (b : ChangePasswordBody) : list string :=
  check (notEmpty (currentPassword b)) "Current password is required"
  ++ check (isLength_min 8 (newPassword b))
       "New password must be at least 8 characters long"
  ++ check (matches_letter (newPassword b))
       "New password must contain at least one letter"
  ++ check (matches_digit (newPassword b))
       "New password must contain at least one number"
  ++ check (negb (String.eqb (newPassword b) (currentPassword b)))
       "New password cannot be the same as current password".

Definition register (env : Env) (db : Db) (b : RegisterBody)
    (salt fresh_id : string) (now : Z) : Outcome * Db :=
  match validate_register b with
  | (_ :: _) as errors => (validation_failed errors, db)
  | [] =>
      match findByEmail db (reg_email b) with
      | Some _ =>
          (Respond 409
             (error_body "Conflict" "User with this email already exists"),
           db)
      | None =>
          let role :=
            match reg_roleId b with
            | Some rid =>
                if truthy (JNumber rid) then
                  match findRole db rid with
                  | Some r => inr (Some r)
                  | None =>
                      inl (Respond 400
                             (error_body "Bad Request"
                                         "Invalid role specified"))
                  end
                else inr (findRole db ROLES_PSR)
            | None => inr (findRole db ROLES_PSR)
            end in
          match role with
          | inl rejected => (rejected, db)
          | inr role =>
              let user :=
                {| draft_email := Some (reg_email b);
                   draft_password_hash := Some (reg_password b);
                   draft_fullName := Some (reg_fullName b);
                   draft_phone := reg_phone b;
                   draft_role := role |} in
              match save_new db user salt fresh_id with
              | inl e => (NextError e, db)
              | inr (u, db') =>
                  match generateTokens env (id u) role now with
                  | inl e => (NextError e, db')
                  | inr tokens =>
                      (Respond 201
                         ([("message", JStr "User registered successfully");
                           ("user",
                            JObj ([("id", JStr (id u));
                                   ("email", JStr (email u));
                                   ("fullName", JStr (fullName u))]
                                  ++ role_name_prop role))]
                          ++ spread_tokens tokens),
                       db')
                  end
              end
          end
      end
  end.

Definition login (env : Env) (db : Db) (b : LoginBody) (now : Z)
    : Outcome :=
  match validate_login b with
  | (_ :: _) as errors => validation_failed errors
  | [] =>
      match findByEmail db (login_email b) with
      | None =>
          Respond 401 (error_body "Unauthorized" "Invalid email or password")
      | Some user =>
          if negb (bcrypt_compare (login_password b) (password_hash user))
          then
            Respond 401
              (error_body "Unauthorized" "Invalid email or password")
          else
            match generateTokens env (id user) (roleOf db user) now with
            | inl e => NextError e
            | inr tokens =>
                Respond 200
                  ([("message", JStr "Login successful");
                    ("user",
                     JObj ([("id", JStr (id user));
                            ("email", JStr (email user));
                            ("fullName", JStr (fullName user))]
                           ++ role_name_prop (roleOf db user)))]
                   ++ spread_tokens tokens)
            end
      end
  end.

(** [refreshToken]: [token] is [req.body.refreshToken]. *)
Definition refreshToken_handler (env : Env) (db : Db)
    (token : option Token) (now : Z) : Outcome :=
  match token with
  | None =>
      Respond 400 (error_body "Bad Request" "Refresh token is required")
  | Some t =>
      if negb (truthy_token t) then
        Respond 400 (error_body "Bad Request" "Refresh token is required")
      else
        match jwt_verify t (js_or (JWT_REFRESH_SECRET env) (JWT_SECRET env))
                         now with
        | inl _ =>
            Respond 401
              (error_body "Unauthorized" "Invalid or expired refresh token")
        | inr decoded =>
            match findById db (claim_id decoded) with
            | None => Respond 401 (error_body "Unauthorized" "User not found")
            | Some user =>
                match generateTokens env (id user) (roleOf db user) now with
                | inl e => NextError e
                | inr tokens =>
                    Respond 200
                      ([("message", JStr "Token refreshed successfully")]
                       ++ spread_tokens tokens)
                end
            end
        end
  end.

(** [changePassword]: [uid] is [req.user.id]. *)
Definition changePassword (db : Db) (uid : string)
    (b : ChangePasswordBody) (salt : string) : Outcome * Db :=
  match validate_changePassword b with
  | (_ :: _) as errors => (validation_failed errors, db)
  | [] =>
      match findById db uid with
      | None => (NextError (TypeError "Cannot read properties of null"), db)
      | Some user =>
          if negb (bcrypt_compare (currentPassword b) (password_hash user))
          then
            (Respond 401
               (error_body "Unauthorized" "Current password is incorrect"),
             db)
          else
            (Respond 200 [("message", JStr "Password changed successfully")],
             save_password db (id user) (newPassword b) salt)
      end
  end.

Definition forgot_message : string :=
  "If your email is registered, you will receive a password reset link".

(** [forgotPassword]; this handler does not consult the validators. *)
Definition forgotPassword (env : Env) (db : Db) (email : string) (now : Z)
    : Outcome :=
  match findByEmail db email with
  | None => Respond 200 [("message", JStr forgot_message)]
  | Some user =>
      match jwt_sign {| claim_id := id user; claim_role := JUndefined |}
                     (js_or (JWT_RESET_SECRET env) (JWT_SECRET env))
                     one_hour now with
      | None => NextError (Error "secretOrPrivateKey must have a value")
      | Some resetToken =>
          Respond 200
            ([("message", JStr forgot_message)]
             ++ (if negb (is_production env)
                 then [("resetToken", JTok resetToken)]
                 else []))
      end
  end.
(** [resetPassword]; this handler does not consult the validators
    either. *)
Definition resetPassword (env : Env) (db : Db) (token : option Token)
    (newPassword : option string) (salt : string) (now : Z) : Outcome * Db :=
  match token, newPassword with
  | Some t, Some p =>
      if negb (truthy_token t) || negb (truthy (JString p)) then
        (Respond 400
           (error_body "Bad Request" "Token and new password are required"),
         db)
      else
        match jwt_verify t (js_or (JWT_RESET_SECRET env) (JWT_SECRET env))
                         now with
        | inl _ =>
            (Respond 401
               (error_body "Unauthorized" "Invalid or expired reset token"),
             db)
        | inr decoded =>
            match findById db (claim_id decoded) with
            | None => (Respond 404 (error_body "Not Found" "User not found"), db)
            | Some user =>
                (Respond 200 [("message", JStr "Password reset successfully")],
                 save_password db (id user) p salt)
            end
        end
  | _, _ =>
      (Respond 400
         (error_body "Bad Request" "Token and new password are required"),
       db)
  end.
End AuthController.

(* ================================================================== *)
(** * OTP controller: the handlers                                     *)
(* ================================================================== *)

Record VerifyBody := {
  verify_phone : string;
  verify_otp : string;
  verify_fullName : option string
}.

(** The [phone] chain shared by the OTP routes. *)
Definition validate_phone (phone : string) : list string :=
  check (notEmpty phone) "Phone number is required"
  ++ check (matches_nepali_phone phone)
       "Please provide a valid Nepali phone number".

(** The chains of [POST /verify-otp]. *)
Definition validate_verifyOTP (b : VerifyBody) : list string :=
  validate_phone (verify_phone b)
  ++ check (notEmpty (verify_otp b)) "OTP is required"
  ++ check (isLength 6 6 (verify_otp b)) "OTP must be 6 digits"
  ++ check (isNumeric (verify_otp b)) "OTP must contain only numbers"
  ++ optional (verify_fullName b)
       (fun n => check (isLength 2 100 n)
                   "Full name must be between 2 and 100 characters").

Definition invalid_otp : Outcome :=
  Respond 401
    (error_body "Invalid OTP"
                "The verification code is invalid or has expired.").

Definition registration_required : Outcome :=
  Respond 400
    (error_body "Registration Required"
                "User not found. Please provide your full name to register."
     ++ [("requiresRegistration", JBool true)]).

(** [sendOTP] *)
Definition sendOTP (env : Env) (store : OtpStore) (phone : string)
    (rand : Q) (gateway : option Z) (now : Z) : Outcome * OtpStore :=
  match validate_phone phone with
  | (_ :: _) as errors => (validation_failed errors, store)
  | [] =>
      let formattedPhone := formatNepaliPhone phone in
      let code := generateOTP rand in
      let store' := storeOTP store formattedPhone code now in
      if negb (sendOTPviaSMS env gateway) then
        (Respond 500
           (error_body "Failed to send OTP"
              "Could not send verification code. Please try again."),
         store')
      else
        (Respond 200
           ([("message", JStr "OTP sent successfully")]
            ++ (if is_production env then [] else [("otp", JStr code)])
            ++ [("phone", JStr formattedPhone)]),
         store')
  end.

Section OtpController.
Context `{Bcrypt}.

(** [verifyOTPAndLogin]; [placeholder] is the random text stored as
    the password of an account created here. *)
Definition verifyOTPAndLogin (env : Env) (store : OtpStore) (db : Db)
    (b : VerifyBody) (placeholder salt fresh_id : string) (now : Z)
    : Outcome * OtpStore * Db :=
  match validate_verifyOTP b with
  | (_ :: _) as errors => (validation_failed errors, store, db)
  | [] =>
      let formattedPhone := formatNepaliPhone (verify_phone b) in
      let '(isValidOTP, store') :=
        verifyOTP store formattedPhone (verify_otp b) now in
      if negb isValidOTP then (invalid_otp, store', db)
      else
        let found :=
          match findByPhone db formattedPhone with
          | Some user => inr (user, roleOf db user, db)
          | None =>
              if negb (truthy_field (verify_fullName b)) then
                inl registration_required
              else
                match findRole db ROLES_PSR with
                | None =>
                    inl (Respond 500
                           (error_body "Server Error"
                                       "Could not assign user role."))
                | Some psrRole =>
                    let user :=
                      {| draft_email := None;
                         draft_password_hash := Some placeholder;
                         draft_fullName := verify_fullName b;
                         draft_phone := Some formattedPhone;
                         draft_role := Some psrRole |} in
                    match save_new db user salt fresh_id with
                    | inl e => inl (NextError e)
                    | inr (u, db') => inr (u, Some psrRole, db')
                    end
                end
          end in
        match found with
        | inl answered => (answered, store', db)
        | inr (user, role, db') =>
            match generateTokens env (id user) role now with
            | inl e => (NextError e, store', db')
            | inr tokens =>
                (Respond 200
                   ([("message", JStr "Authentication successful");
                     ("user",
                      JObj ([("id", JStr (id user))]
                            ++ prop "phone" (of_field (phone user))
                            ++ [("fullName", JStr (fullName user))]
                            ++ role_name_prop role))]
                    ++ spread_tokens tokens),
                 store', db')
            end
        end
  end.
End OtpController.

(* ================================================================== *)
(** * Middleware                                                       *)
(* ================================================================== *)

(** [req.user] as the authentication middleware builds it. *)
Record ReqUser := {
  ru_id : string;
  ru_email : JsVal;
  ru_fullName : JsVal;
  ru_role : JsVal
}.

Definition unauthorized (message : string) : Outcome :=
  Respond 401 (error_body "Unauthorized" message).

(** The [Authorization] header is given as its words, that is as
    [authHeader.split(' ')]; the empty header is the single empty word. *)
Definition header_is_empty (words : list Token) : bool :=
  match words with
  | [Opaque s] => String.eqb s ""
  | _ => false
  end.

(** [authMiddleware]: the response it sends, or the [req.user] it
    attaches before calling [next()]. *)
Definition authMiddleware (env : Env) (db : Db)
    (authorization : option (list Token)) (now : Z) : Outcome + ReqUser :=
  match authorization with
  | None => inl (unauthorized "Authentication required. No token provided.")
  | Some words =>
      if header_is_empty words then
        inl (unauthorized "Authentication required. No token provided.")
      else
        match nth_error words 1 with
        | None =>
            inl (unauthorized
                   "Invalid authentication format. Expected Bearer [token].")
            (* the message, without the quotation marks around Bearer [token] *)
        | Some token =>
            if negb (truthy_token token) then
              inl (unauthorized
                     "Invalid authentication format. Expected Bearer [token].")
            else
              match jwt_verify token (JWT_SECRET env) now with
              | inl e =>
                  if String.eqb (exn_name e) "JsonWebTokenError" then
                    inl (unauthorized "Invalid authentication token.")
                  else if String.eqb (exn_name e) "TokenExpiredError" then
                    inl (unauthorized
                      "Authentication token has expired. Please login again.")
                  else inl (NextError e)
              | inr decoded =>
                  match findById db (claim_id decoded) with
                  | None =>
                      inl (unauthorized
                        "User no longer exists or access has been revoked.")
                  | Some user =>
                      match roleOf db user with
                      | None =>
                          inl (NextError
                                 (TypeError "Cannot read properties of null"))
                      | Some role =>
                          inr {| ru_id := id user;
                                 ru_email := User_get user "email";
                                 ru_fullName := User_get user "full_name";
                                 ru_role := Role_get role "role_name" |}
                      end
                  end
              end
        end
  end.

Definition forbidden : Outcome :=
  Respond 403
    (error_body "Forbidden"
                "You do not have permission to access this resource.").

(** [rbacMiddleware(allowedRoles)] applied to a request whose [req.user]
    is [user]: the response it sends, or [None] when it calls [next()]. *)
Definition rbacMiddleware (allowedRoles : list string)
    (user : option ReqUser) : option Outcome :=
  match user with
  | None =>
      Some (unauthorized "Authentication required before role verification.")
  | Some u =>
      if negb (truthy (ru_role u)) then
        Some (unauthorized "Authentication required before role verification.")
      else if includes allowedRoles (ru_role u) then None
      else Some forbidden
  end.

Definition adminOnly := rbacMiddleware ["admin"].
Definition adminOrPsr := rbacMiddleware ["admin"; "psr"].

(** A route mounted as [authMiddleware, rbacMiddleware(allowedRoles),
    handler], like [/api/reports] with [['admin']]: the response a
    middleware sends, or the [req.user] the handler is entered with. *)
Definition role_gated_route (allowedRoles : list string) (env : Env)
    (db : Db) (authorization : option (list Token)) (now : Z)
    : Outcome + ReqUser :=
  match authMiddleware env db authorization now with
  | inl answered => inl answered
  | inr user =>
      match rbacMiddleware allowedRoles (Some user) with
      | Some answered => inl answered
      | None => inr user
      end
  end.

Section Routes.
Context `{Bcrypt} `{ValidatorJs}.

(** [POST /change-password]: [authMiddleware], the validators, then
    the controller. *)
Definition changePassword_route (env : Env) (db : Db)
    (authorization : option (list Token)) (b : ChangePasswordBody)
    (salt : string) (now : Z) : Outcome * Db :=
  match authMiddleware env db authorization now with
  | inl answered => (answered, db)
  | inr user => changePassword db (ru_id user) b salt
  end.
End Routes.

(* ================================================================== *)
(** * Entity methods, the owner guard, link-phone                      *)
(* ================================================================== *)

(** [Role.isAdmin()] and [Role.isPsr()] *)
Definition Role_isAdmin (r : Role) : bool :=
  strict_eqb (Role_get r "roleName") (JString "admin").

Definition Role_isPsr (r : Role) : bool :=
  strict_eqb (Role_get r "roleName") (JString "psr").

(** [this.role?.role_name], for a user whose [role] relation is [role]
    ([None] when it is null or not loaded). *)
Definition User_role_name (role : option Role) : JsVal :=
  match role with
  | Some r => Role_get r "role_name"
  | None => JUndefined
  end.

(** [User.isAdmin()] and [User.isPsr()] *)
Definition User_isAdmin (role : option Role) : bool :=
  strict_eqb (User_role_name role) (JString "admin").

Definition User_isPsr (role : option Role) : bool :=
  strict_eqb (User_role_name role) (JString "psr").

(** [ownerOrAdmin(getResourceUserId)] applied to a request whose
    [req.user] is [user]; [resourceUserId] is what awaiting
    [getResourceUserId(req)] gives, a value or the error it threw.
    [None] is [next()]. *)
Definition ownerOrAdmin (resourceUserId : Exn + JsVal)
    (user : option ReqUser) : option Outcome :=
  match user with
  | None =>
      Some (NextError (TypeError "Cannot read properties of undefined"))
  | Some u =>
      if strict_eqb (ru_role u) (JString "admin") then None
      else
        match resourceUserId with
        | inl e => Some (NextError e)
        | inr owner =>
            if strict_eqb (JString (ru_id u)) owner then None
            else Some forbidden
        end
  end.

(** A route mounted as [authMiddleware, ownerOrAdmin(getResourceUserId),
    handler]. *)
Definition owner_gated_route (resourceUserId : Exn + JsVal) (env : Env)
    (db : Db) (authorization : option (list Token)) (now : Z)
    : Outcome + ReqUser :=
  match authMiddleware env db authorization now with
  | inl answered => inl answered
  | inr user =>
      match ownerOrAdmin resourceUserId (Some user) with
      | Some answered => inl answered
      | None => inr user
      end
  end.

(** The value of a property of a JSON object, when it has it. *)
Fixpoint lookup_field (k : string) (b : Body) : option json :=
  match b with
  | [] => None
  | (k', v) :: b' => if String.eqb k' k then Some v else lookup_field k b'
  end.

(** What [linkPhoneToAccount] did: the response it sent, or the error
    its [catch] passed to [next], by [name] and [message]. *)
Inductive Handled :=
  | Sent (answer : Outcome)
  | Threw (name message : string).

(** The body of [POST /link-phone]: [email] and [password] are optional
    in the route's chains. *)
Record LinkBody := {
  link_phone : string;
  link_email : option string;
  link_password : option string
}.

Section LinkPhone.
Context `{ValidatorJs}.

(** The chains of [POST /link-phone]. *)
Definition validate_linkPhone (b : LinkBody) : list string :=
  validate_phone (link_phone b)
  ++ optional (link_email b)
       (fun e => check (isEmail e) "Please provide a valid email address")
  ++ optional (link_password b)
       (fun p => check (isLength_min 8 p)
                   "Password must be at least 8 characters long").

(** [userRepository.findOne({ where: { email } })] of
    [linkPhoneToAccount]. For a body without [email] the condition is
    [{ email: undefined }], and which row TypeORM then finds differs
    between its versions (those that drop the condition find the first
    row of the table): [where_undefined] is that row. *)
Definition linkPhone_findOne (db : Db) (b : LinkBody)
    (where_undefined : option User) : option User :=
  match link_email b with
  | Some e => findByEmail db e
  | None => where_undefined
  end.

(** [linkPhoneToAccount]. The controller's module never imports
    [bcrypt], so evaluating [bcrypt.compare(...)] throws a
    [ReferenceError], which the [catch] passes to [next]; nothing after
    that line runs. *)
Definition linkPhoneToAccount (db : Db) (b : LinkBody)
    (where_undefined : option User) : Handled * Db :=
  match validate_linkPhone b with
  | (_ :: _) as errors => (Sent (validation_failed errors), db)
  | [] =>
      match linkPhone_findOne db b where_undefined with
      | None =>
          (Sent (Respond 404
                   (error_body "Not Found" "User not found with this email.")),
           db)
      | Some user => (Threw "ReferenceError" "bcrypt is not defined", db)
      end
  end.
End LinkPhone.

(* ================================================================== *)
(** * Fixtures for the closed examples                                 *)
(* ================================================================== *)

(** A stand-in for bcrypt that tags the salt and the data. *)
Definition demo_bcrypt : Bcrypt := {|
  bcrypt_hash := fun data rounds salt => "$2b$10$" +:+ salt +:+ "." +:+ data;
  bcrypt_compare := fun data encrypted =>
    match strip_prefix "$2b$10$" encrypted with
    | Some rest =>
        match split_dot rest with
        | (_, Some d) => String.eqb d data
        | (_, None) => false
        end
    | None => false
    end
|}.

Definition demo_validator : ValidatorJs := {|
  isEmail := fun s => string_exists (Ascii.eqb "@") s;
  isMobilePhone := fun s => nonempty_digits s
|}.

Definition env_development : Env := {|
  JWT_SECRET := Some "access-secret";
  JWT_REFRESH_SECRET := Some "refresh-secret";
  JWT_RESET_SECRET := None;
  NODE_ENV := None;
  SMS_GATEWAY_URL := None;
  SMS_API_KEY := None
|}.

Definition env_production : Env := {|
  JWT_SECRET := Some "access-secret";
  JWT_REFRESH_SECRET := Some "refresh-secret";
  JWT_RESET_SECRET := None;
  NODE_ENV := Some "production";
  SMS_GATEWAY_URL := None;
  SMS_API_KEY := None
|}.

Definition seeded_roles : list Role :=
  [ {| role_id := 1; roleName := "admin" |};
    {| role_id := 2; roleName := "psr" |} ].

Definition alice : User := {|
  id := "u-alice";
  email := "alice@x.com";
  password_hash := "$2b$10$salt.Passw0rd!";
  fullName := "Alice A";
  phone := None;
  roleId := 2
|}.

Definition db_empty : Db := {| users := []; roles := seeded_roles |}.
Definition db_alice : Db := {| users := [alice]; roles := seeded_roles |}.

(** Alice after an administrator moved her to the admin role. *)
Definition db_alice_admin : Db := {|
  users := [ {| id := "u-alice"; email := "alice@x.com";
                password_hash := "$2b$10$salt.Passw0rd!";
                fullName := "Alice A"; phone := None; roleId := 1 |} ];
  roles := seeded_roles
|}.

(** A ledger holding one code for 9841234567, issued at time 0. *)
Definition ledger_demo : OtpStore :=
  storeOTP ∅ "+9779841234567" "482913" 0.



(** Only [JWT_SECRET] is set: refresh and reset tokens fall back to it. *)
Definition env_single_secret : Env := {|
  JWT_SECRET := Some "access-secret";
  JWT_REFRESH_SECRET := None;
  JWT_RESET_SECRET := None;
  NODE_ENV := Some "production";
  SMS_GATEWAY_URL := None;
  SMS_API_KEY := None
|}.

(* ================================================================== *)
(** * Properties of the OTP ledger                                     *)
(* ================================================================== *)

Lemma pretty_N_char_digit x : is_digit (pretty_N_char x) = true.
Proof. unfold pretty_N_char. repeat case_match; reflexivity. Qed.

Lemma pretty_N_char_zero x :
  (x < 10)%N -> pretty_N_char x = "0"%char -> x = 0%N.
Proof. intros Hx E. apply pretty_N_char_inj; [done | lia | exact E]. Qed.

Lemma div10_bounds (a b x : N) :
  (10 * a <= x <= 10 * b + 9)%N -> (a <= N.div x 10 <= b)%N.
Proof.
  intros [Hlo Hhi]. split.
  - apply N.div_le_lower_bound; lia.
  - apply N.lt_succ_r. apply N.Div0.div_lt_upper_bound. lia.
Qed.

Lemma six_digit_quotients (x : N) :
  (100000 <= x <= 999999)%N ->
  let q1 := N.div x 10 in let q2 := N.div q1 10 in let q3 := N.div q2 10 in
  let q4 := N.div q3 10 in let q5 := N.div q4 10 in
  (0 < q1 /\ 0 < q2 /\ 0 < q3 /\ 0 < q4 /\ 1 <= q5 <= 9 /\ N.div q5 10 = 0)%N.
Proof.
  intros Hx; cbv zeta.
  assert (H1 := div10_bounds 10000 99999 x ltac:(lia)).
  assert (H2 := div10_bounds 1000 9999 _ H1).
  assert (H3 := div10_bounds 100 999 _ H2).
  assert (H4 := div10_bounds 10 99 _ H3).
  assert (H5 := div10_bounds 1 9 _ H4).
  assert (H6 := div10_bounds 0 0
                  (N.div (N.div (N.div (N.div (N.div x 10) 10) 10) 10) 10)
                  ltac:(lia)).
  repeat split; lia.
Qed.

(** A number of six decimal digits prints as six digit characters, the
    first of which is not a zero. *)
Lemma toString_six n :
  100000 <= n <= 999999 ->
  exists c5 c4 c3 c2 c1 c0 : ascii,
    toString n =
      String c5 (String c4 (String c3 (String c2 (String c1 (String c0 ""))))) /\
    c5 <> "0"%char /\
    Forall (fun c => is_digit c = true) [c5; c4; c3; c2; c1; c0].
Proof.
  intros Hn. unfold toString.
  destruct n as [|p|p]; try lia.
  change (pretty (Z.pos p)) with (pretty (N.pos p)).
  unfold pretty, pretty_N. rewrite decide_False by lia.
  assert (Hx : (100000 <= N.pos p <= 999999)%N) by lia.
  generalize dependent (N.pos p). clear Hn p. intros x Hx.
  destruct (six_digit_quotients x Hx) as (H1 & H2 & H3 & H4 & H5 & H6).
  rewrite (pretty_N_go_step x) by lia.
  do 5 (rewrite pretty_N_go_step by assumption || lia).
  rewrite H6, pretty_N_go_0.
  do 6 eexists. split; [reflexivity|]. split.
  - intros E. apply pretty_N_char_zero in E.
    + rewrite N.mod_small in E by lia. lia.
    + apply N.mod_lt. discriminate.
  - repeat constructor; apply pretty_N_char_digit.
Qed.

(** Powers of two. *)
Lemma pow2_pos (k : Z) : (0 < 2 ^ k)%Q.
Proof. by apply Qpower_0_lt. Qed.

Lemma pow2_add (a b : Z) : (2 ^ (a + b) == 2 ^ a * 2 ^ b)%Q.
Proof. by apply Qpower_plus. Qed.

Lemma pow2_inject (a : Z) : 0 <= a -> (2 ^ a == inject_Z (2 ^ a))%Q.
Proof. intros Ha. by rewrite Zpower_Qpower. Qed.

Lemma pow2_lt_inv (a b : Z) : (2 ^ a < 2 ^ b)%Q -> a < b.
Proof. intros E. by apply Qpower_lt_compat_l_inv in E. Qed.

Lemma Qmult_le_l_weak (x y z : Q) : (0 <= z -> x <= y -> z * x <= z * y)%Q.
Proof.
  intros Hz Hxy. rewrite (Qmult_comm z x), (Qmult_comm z y).
  by apply Qmult_le_compat_r.
Qed.

(** [Qlog2] is the binary logarithm, rounded down. *)
Lemma Qlog2_spec (x : Q) :
  ~ (x == 0)%Q ->
  (2 ^ Qlog2 x <= Qabs x)%Q /\ (Qabs x < 2 ^ (Qlog2 x + 1))%Q.
Proof.
  intros Hx.
  set (n := Z.abs (Qnum x)). set (d := Zpos (Qden x)).
  assert (Hn : 0 < n).
  { unfold n. destruct x as [[|p|p] q]; simpl; try lia.
    exfalso. apply Hx. reflexivity. }
  assert (Hd : 0 < d) by (unfold d; lia).
  destruct (Z.log2_spec n Hn) as [Hn1 Hn2].
  destruct (Z.log2_spec d Hd) as [Hd1 Hd2].
  pose proof (Z.log2_nonneg n) as Ha. pose proof (Z.log2_nonneg d) as Hb.
  set (a := Z.log2 n) in *. set (b := Z.log2 d) in *.
  assert (Habs : (Qabs x * inject_Z d == inject_Z n)%Q).
  { destruct x as [xn xd]. unfold Qabs, n, d. simpl Qnum. simpl Qden.
    unfold Qeq, Qmult, inject_Z. simpl. lia. }
  assert (Hpa : (0 < inject_Z (2 ^ a))%Q).
  { rewrite <- pow2_inject by lia. apply pow2_pos. }
  assert (Hpb : (0 < inject_Z (2 ^ b))%Q).
  { rewrite <- pow2_inject by lia. apply pow2_pos. }
  assert (Hdq : (0 < inject_Z d)%Q)
    by (change 0%Q with (inject_Z 0); by rewrite <- Zlt_Qlt).
  assert (Habs0 : (0 <= Qabs x)%Q) by apply Qabs_nonneg.
  assert (Hupper : (Qabs x < 2 ^ (a - b + 1))%Q).
  { replace (a - b + 1) with ((a + 1) + (- b)) by lia.
    rewrite pow2_add, Qpower_opp, (pow2_inject (a + 1)), (pow2_inject b)
      by lia.
    apply Qlt_shift_div_l; [done|].
    apply Qle_lt_trans with (Qabs x * inject_Z d)%Q.
    - apply Qmult_le_l_weak; [done|]. by rewrite <- Zle_Qle.
    - rewrite Habs. rewrite <- Zlt_Qlt. replace (a + 1) with (Z.succ a) by lia.
      done. }
  assert (Hlower : (2 ^ (a - b - 1) <= Qabs x)%Q).
  { replace (a - b - 1) with (a + (- (b + 1))) by lia.
    rewrite pow2_add, Qpower_opp, (pow2_inject a), (pow2_inject (b + 1))
      by lia.
    assert (Hpb1 : (0 < inject_Z (2 ^ (b + 1)))%Q).
    { rewrite <- pow2_inject by lia. apply pow2_pos. }
    apply Qle_shift_div_r; [done|].
    apply Qle_trans with (Qabs x * inject_Z d)%Q.
    - rewrite Habs. by rewrite <- Zle_Qle.
    - apply Qmult_le_l_weak; [done|]. rewrite <- Zle_Qle.
      replace (b + 1) with (Z.succ b) by lia. lia. }
  unfold Qlog2. fold n. fold d. fold a. fold b.
  destruct (Qle_bool (2 ^ (a - b)) (Qabs x)) eqn:E.
  - apply Qle_bool_iff in E. done.
  - split; [done|]. replace (a - b - 1 + 1) with (a - b) by lia.
    apply Qnot_le_lt. intros H. apply Qle_bool_iff in H. congruence.
Qed.

(** [round_half_even] is the floor or the next integer, whichever is
    nearer. *)
Lemma round_half_even_bounds (t : Q) :
  Qfloor t <= round_half_even t <= Qfloor t + 1 /\
  (round_half_even t = Qfloor t + 1 -> (1 # 2 <= t - inject_Z (Qfloor t))%Q) /\
  (round_half_even t = Qfloor t -> (t - inject_Z (Qfloor t) <= 1 # 2)%Q).
Proof.
  unfold round_half_even.
  destruct (Qcompare_spec (t - inject_Z (Qfloor t)) (1 # 2)) as [E|E|E].
  - destruct (Z.even (Qfloor t)); (split; [lia|]); split; intros _;
      rewrite E; apply Qle_refl.
  - split; [lia|]. split; [lia|]. intros _. by apply Qlt_le_weak.
  - split; [lia|]. split; [|lia]. intros _. by apply Qlt_le_weak.
Qed.

Lemma round_half_even_le (t : Q) (m : Z) :
  (t <= inject_Z m)%Q -> round_half_even t <= m.
Proof.
  intros Ht. destruct (round_half_even_bounds t) as ([Hlo Hhi] & Hup & _).
  pose proof (Qfloor_le t) as Hf.
  destruct (Z.eq_dec (round_half_even t) (Qfloor t + 1)) as [E|E].
  - specialize (Hup E). rewrite E.
    assert (inject_Z (Qfloor t) < inject_Z m)%Q as Hlt by lra.
    rewrite <- Zlt_Qlt in Hlt. lia.
  - assert (inject_Z (Qfloor t) <= inject_Z m)%Q as Hle by lra.
    rewrite <- Zle_Qle in Hle. lia.
Qed.

Lemma round_half_even_ge (t : Q) (m : Z) :
  (inject_Z m <= t)%Q -> m <= round_half_even t.
Proof.
  intros Ht. destruct (round_half_even_bounds t) as ([Hlo Hhi] & _).
  apply Qfloor_resp_le in Ht. rewrite Qfloor_Z in Ht. lia.
Qed.

Lemma round_half_even_near (t : Q) :
  (inject_Z (round_half_even t) <= t + (1 # 2))%Q.
Proof.
  destruct (round_half_even_bounds t) as ([Hlo Hhi] & Hup & Hdown).
  pose proof (Qfloor_le t) as Hf.
  destruct (Z.eq_dec (round_half_even t) (Qfloor t)) as [E|E].
  - rewrite E. lra.
  - assert (E' : round_half_even t = Qfloor t + 1) by lia.
    clear Hup. rewrite E'.
    pose proof (Qlt_floor t) as Hc. revert Hc. unfold round_half_even in E'.
    destruct (Qcompare_spec (t - inject_Z (Qfloor t)) (1 # 2)) as [H|H|H].
    + rewrite inject_Z_plus. change (inject_Z 1) with 1%Q. lra.
    + lia.
    + rewrite inject_Z_plus. change (inject_Z 1) with 1%Q. lra.
Qed.

(** Rounding does not cross a number of the grid it rounds to, nor of
    a coarser one. *)
Lemma grid_coarser (x : Q) (k : Z) (m : Z) :
  binary64_ulp_exponent x <= k ->
  (inject_Z m * 2 ^ k
   == inject_Z (m * 2 ^ (k - binary64_ulp_exponent x))
      * 2 ^ binary64_ulp_exponent x)%Q.
Proof.
  intros Hk. set (k0 := binary64_ulp_exponent x) in *.
  replace k with ((k - k0) + k0) at 1 by lia.
  rewrite pow2_add, inject_Z_mult, (pow2_inject (k - k0)) by lia.
  ring.
Qed.

Lemma round64_le_grid (x : Q) (k : Z) (m : Z) :
  binary64_ulp_exponent x <= k ->
  (x <= inject_Z m * 2 ^ k)%Q ->
  (round64 x <= inject_Z m * 2 ^ k)%Q.
Proof.
  intros Hk Hx. rewrite (grid_coarser x k m Hk) in Hx |- *.
  unfold round64. set (k0 := binary64_ulp_exponent x) in *.
  apply Qmult_le_compat_r; [|apply Qlt_le_weak, pow2_pos].
  rewrite <- Zle_Qle. apply round_half_even_le.
  apply Qle_shift_div_r; [apply pow2_pos | done].
Qed.

Lemma round64_ge_grid (x : Q) (k : Z) (m : Z) :
  binary64_ulp_exponent x <= k ->
  (inject_Z m * 2 ^ k <= x)%Q ->
  (inject_Z m * 2 ^ k <= round64 x)%Q.
Proof.
  intros Hk Hx. rewrite (grid_coarser x k m Hk) in Hx |- *.
  unfold round64. set (k0 := binary64_ulp_exponent x) in *.
  apply Qmult_le_compat_r; [|apply Qlt_le_weak, pow2_pos].
  rewrite <- Zle_Qle. apply round_half_even_ge.
  apply Qle_shift_div_l; [apply pow2_pos | done].
Qed.

(** The grid around a positive number below [2^n]. *)
Lemma binary64_ulp_exponent_below (x : Q) (n : Z) :
  (0 < x)%Q -> (x < 2 ^ n)%Q -> -1074 <= n - 53 ->
  binary64_ulp_exponent x <= n - 53.
Proof.
  intros H0 Hn Hsub. unfold binary64_ulp_exponent.
  assert (Hx : ~ (x == 0)%Q) by lra.
  destruct (Qlog2_spec x Hx) as [Hlo _].
  rewrite (Qabs_pos x) in Hlo by lra.
  assert (Qlog2 x < n) by (apply pow2_lt_inv; lra). lia.
Qed.

Lemma binary64_ulp_exponent_binade (x : Q) (n : Z) :
  (2 ^ n <= x)%Q -> (x < 2 ^ (n + 1))%Q -> -1074 <= n - 52 ->
  binary64_ulp_exponent x = n - 52.
Proof.
  intros Hlo Hhi Hsub. unfold binary64_ulp_exponent.
  pose proof (pow2_pos n) as Hp.
  assert (Hx : ~ (x == 0)%Q) by lra.
  destruct (Qlog2_spec x Hx) as [Hlo' Hhi'].
  rewrite (Qabs_pos x) in Hlo', Hhi' by lra.
  assert (Qlog2 x < n + 1) by (apply pow2_lt_inv; lra).
  assert (n < Qlog2 x + 1) by (apply pow2_lt_inv; lra). lia.
Qed.

Lemma Qfloor_spec (x : Q) (n : Z) :
  Qfloor x = n <-> (inject_Z n <= x)%Q /\ (x < inject_Z (n + 1))%Q.
Proof.
  split.
  - intros <-. split; [apply Qfloor_le | apply Qlt_floor].
  - intros [Hlo Hhi].
    pose proof (Qfloor_le x) as Hf. pose proof (Qlt_floor x) as Hc.
    assert (H1 : (inject_Z n < inject_Z (Qfloor x + 1))%Q)
      by (eapply Qle_lt_trans; eauto).
    assert (H2 : (inject_Z (Qfloor x) < inject_Z (n + 1))%Q)
      by (eapply Qle_lt_trans; eauto).
    rewrite <- Zlt_Qlt in H1, H2. lia.
Qed.

Lemma pow2_19 : (2 ^ 19 == 524288)%Q. Proof. reflexivity. Qed.
Lemma pow2_20 : (2 ^ 20 == 1048576)%Q. Proof. reflexivity. Qed.
Lemma pow2_m1 : (2 ^ (-1) == 1 # 2)%Q. Proof. reflexivity. Qed.
Lemma pow2_0 : (2 ^ 0 == 1)%Q. Proof. reflexivity. Qed.
Lemma pow2_m33 : (2 ^ (-33) == 1 # 8589934592)%Q. Proof. reflexivity. Qed.
Lemma pow2_m53 : (2 ^ (-53) == 1 # 9007199254740992)%Q.
Proof. reflexivity. Qed.

(** [round64] on a few numbers: 0.1 and 1/3 become the binary64 numbers
    nearest to them, a number halfway between two binary64 numbers goes
    to the one with the even significand (also among the subnormal
    numbers), and the result of a rounding is a binary64 number. *)
Example round64_values :
  (round64 (1 # 10) == 3602879701896397 # 36028797018963968)%Q /\
  (round64 (1 # 3) == 6004799503160661 # 18014398509481984)%Q /\
  (round64 (1 - (1 # 18014398509481984)) == 1)%Q /\
  (round64 (2 ^ (-1075)) == 0)%Q /\
  (round64 (3 * 2 ^ (-1075)) == 2 ^ (-1073))%Q /\
  is_binary64 (round64 (1 # 10)) /\
  ~ is_binary64 (1 # 10).
Proof.
  unfold is_binary64. repeat split; try (vm_compute; reflexivity).
  vm_compute. discriminate.
Qed.

(** The largest binary64 number below 1 is [1 - 2^-53]. *)
Lemma is_random_below_one (rand : Q) :
  is_random rand -> (rand <= 9007199254740991 # 9007199254740992)%Q.
Proof.
  intros (Hfp & H0 & H1).
  destruct (Qlt_le_dec rand (1 # 2)) as [Hlt|Hge]; [lra|].
  assert (Hk : binary64_ulp_exponent rand = -53).
  { apply (binary64_ulp_exponent_binade rand (-1)).
    - rewrite pow2_m1. done.
    - change (-1 + 1) with 0. rewrite pow2_0. done.
    - lia. }
  unfold is_binary64, round64 in Hfp. rewrite Hk in Hfp.
  set (N := round_half_even (rand / 2 ^ (-53))) in Hfp.
  rewrite pow2_m53 in Hfp.
  assert (HN : (inject_Z N < inject_Z 9007199254740992)%Q).
  { change (inject_Z 9007199254740992) with 9007199254740992%Q. lra. }
  rewrite <- Zlt_Qlt in HN.
  assert (HN' : (inject_Z N <= inject_Z 9007199254740991)%Q)
    by (rewrite <- Zle_Qle; lia).
  change (inject_Z 9007199254740991) with 9007199254740991%Q in HN'. lra.
Qed.

Lemma round64_zero (x : Q) : (x == 0)%Q -> (round64 x == 0)%Q.
Proof.
  intros E. unfold round64. generalize (binary64_ulp_exponent x). intros k.
  assert (Ht : (x / 2 ^ k == inject_Z 0)%Q).
  { rewrite E. unfold Qdiv. change (inject_Z 0) with 0%Q. ring. }
  assert (round_half_even (x / 2 ^ k) = 0) as ->.
  { apply Z.le_antisymm.
    - apply round_half_even_le. rewrite Ht. apply Qle_refl.
    - apply round_half_even_ge. rewrite Ht. apply Qle_refl. }
  change (inject_Z 0) with 0%Q. ring.
Qed.

(** The product [rand * 900000], rounded, is a binary64 number below
    900000: at most [900000 - 2^-33]. *)
Lemma generateOTP_product_range (rand : Q) :
  is_random rand ->
  (0 <= round64 (rand * 900000))%Q /\
  (round64 (rand * 900000) <= 900000 - (1 # 8589934592))%Q.
Proof.
  intros Hr. pose proof (is_random_below_one rand Hr) as Hmax.
  destruct Hr as (_ & H0 & _).
  set (q := (rand * 900000)%Q).
  assert (Hq0 : (0 <= q)%Q) by (unfold q; lra).
  assert (Hq1 : (q <= 900000 - (900000 # 9007199254740992))%Q)
    by (unfold q; lra).
  destruct (Qlt_le_dec 0 q) as [Hpos|Hzero].
  2: { assert (E : (q == 0)%Q) by lra. rewrite (round64_zero q E). lra. }
  split.
  - pose proof (round64_ge_grid q (binary64_ulp_exponent q) 0 (Z.le_refl _))
      as H. change (inject_Z 0) with 0%Q in H.
    rewrite Qmult_0_l in H. by apply H.
  - destruct (Qlt_le_dec q (2 ^ 19)) as [Hsmall|Hbig].
    + assert (Hk : binary64_ulp_exponent q <= -33).
      { pose proof (binary64_ulp_exponent_below q 19 Hpos Hsmall). lia. }
      pose proof (round64_le_grid q (-33) (900000 * 2 ^ 33 - 1) Hk) as H.
      rewrite pow2_m33 in H.
      change (inject_Z (900000 * 2 ^ 33 - 1)) with 7730941132799999%Q in H.
      rewrite pow2_19 in Hsmall.
      assert (E : (7730941132799999 * (1 # 8589934592)
                   == 900000 - (1 # 8589934592))%Q) by reflexivity.
      rewrite E in H. apply H. lra.
    + assert (Hk : binary64_ulp_exponent q = -33).
      { apply (binary64_ulp_exponent_binade q 19); [done| |lia].
        change (19 + 1) with 20. rewrite pow2_20. lra. }
      unfold round64. rewrite Hk.
      set (t := (q / 2 ^ (-33))%Q).
      assert (Ht : (t == q * 8589934592)%Q).
      { unfold t. rewrite pow2_m33. field. }
      pose proof (round_half_even_near t) as Hnear.
      assert (Hlt : (inject_Z (round_half_even t)
                     < inject_Z 7730941132800000)%Q).
      { change (inject_Z 7730941132800000) with 7730941132800000%Q.
        lra. }
      rewrite <- Zlt_Qlt in Hlt.
      assert (Hle : (inject_Z (round_half_even t)
                     <= inject_Z 7730941132799999)%Q)
        by (rewrite <- Zle_Qle; lia).
      change (inject_Z 7730941132799999) with 7730941132799999%Q in Hle.
      rewrite pow2_m33. lra.
Qed.

(** The code is a number from 100000 to 999999, for every draw. *)
Lemma generateOTP_number_range rand :
  is_random rand -> 100000 <= generateOTP_number rand <= 999999.
Proof.
  intros Hr. destruct (generateOTP_product_range rand Hr) as [Hp0 Hp1].
  unfold generateOTP_number.
  set (a := (100000 + round64 (rand * 900000))%Q).
  assert (Ha0 : (100000 <= a)%Q) by (unfold a; lra).
  assert (Ha1 : (a <= 1000000 - (1 # 8589934592))%Q) by (unfold a; lra).
  assert (Hk : binary64_ulp_exponent a <= -33).
  { assert (H : binary64_ulp_exponent a <= 20 - 53); [|lia].
    apply binary64_ulp_exponent_below; [lra| |lia].
    rewrite pow2_20. lra. }
  pose proof (round64_ge_grid a (-33) (100000 * 2 ^ 33) Hk) as Hlo.
  pose proof (round64_le_grid a (-33) (1000000 * 2 ^ 33 - 1) Hk) as Hhi.
  rewrite pow2_m33 in Hlo, Hhi.
  change (inject_Z (100000 * 2 ^ 33)) with 858993459200000%Q in Hlo.
  change (inject_Z (1000000 * 2 ^ 33 - 1)) with 8589934591999999%Q in Hhi.
  assert (E0 : (858993459200000 * (1 # 8589934592) == 100000)%Q)
    by reflexivity.
  assert (E1 : (8589934591999999 * (1 # 8589934592)
                == 1000000 - (1 # 8589934592))%Q) by reflexivity.
  rewrite E0 in Hlo. rewrite E1 in Hhi.
  specialize (Hlo Ha0). specialize (Hhi Ha1).
  set (s := round64 a) in *.
  pose proof (Qfloor_le s) as Hf. pose proof (Qlt_floor s) as Hc.
  split.
  - apply Qfloor_resp_le in Hlo. change 100000%Q with (inject_Z 100000) in Hlo.
    by rewrite Qfloor_Z in Hlo.
  - assert (Hlt : (inject_Z (Qfloor s) < inject_Z 1000000)%Q).
    { change (inject_Z 1000000) with 1000000%Q. lra. }
    rewrite <- Zlt_Qlt in Hlt. lia.
Qed.

(** A number of the grid it is rounded to, or of a coarser one, is a
    binary64 number: rounding returns it. *)
Lemma round64_on_grid (x : Q) (k : Z) (m : Z) :
  binary64_ulp_exponent x <= k ->
  (x == inject_Z m * 2 ^ k)%Q ->
  (round64 x == x)%Q.
Proof.
  intros Hk E. apply Qle_antisym.
  - apply Qle_trans with (inject_Z m * 2 ^ k)%Q;
      [apply round64_le_grid | ]; try done; rewrite E; apply Qle_refl.
  - apply Qle_trans with (inject_Z m * 2 ^ k)%Q;
      [| apply round64_ge_grid]; try done; rewrite E; apply Qle_refl.
Qed.

Lemma pow2_m32 : (2 ^ (-32) == 1 # 4294967296)%Q. Proof. reflexivity. Qed.

(** Every number from 100000 to 999999 is produced by some draw: one
    of the multiples of [2^-32], for which every step is exact. *)
Lemma generateOTP_number_onto n :
  100000 <= n <= 999999 ->
  exists rand, is_random rand /\ generateOTP_number rand = n.
Proof.
  intros Hn. set (j := n - 100000).
  set (M := ((4 * j + 2) * 1073741824) / 900000).
  assert (HM : 900000 * M <= (4 * j + 2) * 1073741824 < 900000 * (M + 1)).
  { unfold M. split.
    - apply Z.mul_div_le. lia.
    - replace (M + 1) with (Z.succ M) by lia. apply Z.mul_succ_div_gt. lia. }
  fold M in HM.
  assert (HM0 : 0 < M) by lia.
  assert (HM1 : M < 4294967296) by lia.
  exists (inject_Z M * (1 # 4294967296))%Q.
  set (r := (inject_Z M * (1 # 4294967296))%Q).
  assert (Hr0 : (0 < r)%Q).
  { unfold r. assert (0 < inject_Z M)%Q
      by (change 0%Q with (inject_Z 0); by rewrite <- Zlt_Qlt). lra. }
  assert (Hr1 : (r < 1)%Q).
  { unfold r. assert (inject_Z M < inject_Z 4294967296)%Q
      by (by rewrite <- Zlt_Qlt).
    change (inject_Z 4294967296) with 4294967296%Q in *. lra. }
  assert (Hq : (inject_Z j + (1 # 4) <= r * 900000)%Q /\
               (r * 900000 <= inject_Z j + (1 # 2))%Q).
  { assert (H1 : (inject_Z (900000 * M)
                  <= inject_Z ((4 * j + 2) * 1073741824))%Q)
      by (rewrite <- Zle_Qle; lia).
    assert (H2 : (inject_Z ((4 * j + 1) * 1073741824)
                  <= inject_Z (900000 * M))%Q)
      by (rewrite <- Zle_Qle; lia).
    rewrite !inject_Z_mult, !inject_Z_plus, !inject_Z_mult in *.
    change (inject_Z 900000) with 900000%Q in *.
    change (inject_Z 1073741824) with 1073741824%Q in *.
    change (inject_Z 4) with 4%Q in *. change (inject_Z 2) with 2%Q in *.
    change (inject_Z 1) with 1%Q in *.
    unfold r. split; lra. }
  destruct Hq as [Hq0 Hq1].
  assert (Hj0 : (0 <= inject_Z j)%Q)
    by (change 0%Q with (inject_Z 0); rewrite <- Zle_Qle; lia).
  assert (Hj1 : (inject_Z j <= 899999)%Q)
    by (change 899999%Q with (inject_Z 899999); rewrite <- Zle_Qle; lia).
  split.
  - split; [|split; lra].
    apply (round64_on_grid r (-32) M).
    + pose proof (binary64_ulp_exponent_below r 0 Hr0) as H.
      rewrite pow2_0 in H. specialize (H Hr1). lia.
    + unfold r. by rewrite pow2_m32.
  - unfold generateOTP_number.
    assert (Eq : (round64 (r * 900000) == r * 900000)%Q).
    { apply (round64_on_grid (r * 900000) (-32) (M * 900000)).
      - assert (H : binary64_ulp_exponent (r * 900000) <= 20 - 53); [|lia].
        apply binary64_ulp_exponent_below; [lra| |lia]. rewrite pow2_20. lra.
      - unfold r. rewrite pow2_m32, inject_Z_mult.
        change (inject_Z 900000) with 900000%Q. ring. }
    set (a := (100000 + round64 (r * 900000))%Q).
    assert (Ea : (a == 100000 + r * 900000)%Q) by (unfold a; by rewrite Eq).
    assert (Es : (round64 a == a)%Q).
    { apply (round64_on_grid a (-32) (100000 * 4294967296 + M * 900000)).
      - assert (H : binary64_ulp_exponent a <= 20 - 53); [|lia].
        apply binary64_ulp_exponent_below; [lra| |lia]. rewrite pow2_20. lra.
      - rewrite Ea. unfold r.
        rewrite pow2_m32, inject_Z_plus, !inject_Z_mult.
        change (inject_Z 900000) with 900000%Q.
        change (inject_Z 100000) with 100000%Q.
        change (inject_Z 4294967296) with 4294967296%Q. field. }
    rewrite (Qfloor_comp _ _ Es). apply Qfloor_spec.
    replace n with (j + 100000) by (unfold j; lia).
    rewrite !inject_Z_plus. change (inject_Z 100000) with 100000%Q.
    change (inject_Z 1) with 1%Q. split; lra.
Qed.

(** The code is six digits, the first of which is not 0. *)
Lemma generateOTP_digits rand :
  is_random rand ->
  exists c5 c4 c3 c2 c1 c0 : ascii,
    generateOTP rand
    = String c5 (String c4 (String c3 (String c2 (String c1
        (String c0 EmptyString))))) /\
    c5 <> "0"%char /\
    Forall (fun c => is_digit c = true) [c5; c4; c3; c2; c1; c0].
Proof.
  intros Hr. exact (toString_six _ (generateOTP_number_range rand Hr)).
Qed.

(** ** C2 *)

(** C2, counterexample: the claim lets every code from 000000 to 099999
    be issued; no draw of [Math.random()] makes [generateOTP] return
    000000. *)
Lemma C2_counterexample :
  ~ exists rand, is_random rand /\ generateOTP rand = "000000".
Proof.
  intros (rand & Hr & E).
  destruct (generateOTP_digits rand Hr)
    as (c5 & c4 & c3 & c2 & c1 & c0 & Hs & Hne & _).
  rewrite Hs in E. injection E as E5 _. by subst c5.
Qed.

(** C2, as amended: for every draw of [Math.random()] the code is the
    decimal print of an integer from 100000 to 999999: six ASCII digits,
    the first never 0 (so no code has a leading zero); each of these
    900000 integers is the code of some draw; and this code is what
    [sendOTP] stores for the formatted phone. *)
Theorem C2_generateOTP_six_digits_no_leading_zero (rand : Q) :
  is_random rand ->
  100000 <= generateOTP_number rand <= 999999 /\
  generateOTP rand = toString (generateOTP_number rand) /\
  String.length (generateOTP rand) = 6%nat /\
  string_forall is_digit (generateOTP rand) = true /\
  String.prefix "0" (generateOTP rand) = false /\
  (forall n : Z,
     100000 <= n <= 999999 ->
     exists draw, is_random draw /\ generateOTP draw = toString n) /\
  (forall env (store : OtpStore) phone gateway now,
     validate_phone phone = [] ->
     snd (sendOTP env store phone rand gateway now)
     = <[formatNepaliPhone phone :=
           {| otp := generateOTP rand; expiresAt := now + five_minutes |}]>
         store).
Proof.
  intros Hr. pose proof (generateOTP_number_range rand Hr) as Hn.
  assert (Hsend : forall env (store : OtpStore) phone gateway now,
             validate_phone phone = [] ->
             snd (sendOTP env store phone rand gateway now)
             = <[formatNepaliPhone phone :=
                   {| otp := generateOTP rand;
                      expiresAt := now + five_minutes |}]> store).
  { intros env store phone gateway now Hval. unfold sendOTP. rewrite Hval.
    by destruct (negb (sendOTPviaSMS env gateway)). }
  destruct (toString_six _ Hn)
    as (c5 & c4 & c3 & c2 & c1 & c0 & Hs & Hne & Hd).
  assert (Hlen : String.length (generateOTP rand) = 6%nat)
    by (unfold generateOTP; rewrite Hs; reflexivity).
  assert (Hdig : string_forall is_digit (generateOTP rand) = true).
  { unfold generateOTP. rewrite Hs. simpl.
    repeat match goal with
           | H : Forall _ (_ :: _) |- _ => inversion H; subst; clear H
           end.
    repeat match goal with H : is_digit _ = true |- _ => rewrite H; clear H end.
    reflexivity. }
  assert (Hpre : String.prefix "0" (generateOTP rand) = false).
  { unfold generateOTP. rewrite Hs. cbn [String.prefix].
    destruct (ascii_dec "0" c5) as [E|_]; [congruence | reflexivity]. }
  split; [exact Hn|]. split; [reflexivity|]. split; [exact Hlen|].
  split; [exact Hdig|]. split; [exact Hpre|].
  split; [|exact Hsend].
  intros n Hrange.
  destruct (generateOTP_number_onto n Hrange) as (draw & Hdraw & E).
  exists draw. split; [exact Hdraw|]. unfold generateOTP. by rewrite E.
Qed.

Lemma C2_generateOTP_witness :
  is_random (1 # 2) /\
  100000 <= generateOTP_number (1 # 2) <= 999999 /\
  String.length (generateOTP (1 # 2)) = 6%nat.
Proof.
  assert (Hr : is_random (1 # 2))
    by (split; [vm_compute; reflexivity | split; [discriminate | reflexivity]]).
  split; [exact Hr|].
  destruct (C2_generateOTP_six_digits_no_leading_zero (1 # 2) Hr)
    as (Hn & _ & Hl & _).
  split; [exact Hn | exact Hl].
Defined.

(** The arithmetic is that of binary64 numbers. The least draw gives
    100000 and the greatest, [1 - 2^-53], gives 999999. A draw just
    below the boundary between two codes can give the upper one, where
    exact arithmetic gives the lower. And [is_random] has to say that
    the draw is a binary64 number: for a rational nearer to 1 than any
    of them, the same operations give 1000000. *)
Example generateOTP_binary64 :
  generateOTP 0 = "100000" /\
  generateOTP (9007199254740991 # 9007199254740992) = "999999" /\
  is_random (2251889885677795 # 4503599627370496) /\
  generateOTP (2251889885677795 # 4503599627370496) = "550018" /\
  Qfloor (100000 + (2251889885677795 # 4503599627370496) * 900000)%Q
  = 550017 /\
  ~ is_binary64 (1 - (1 # 18014398509481984))%Q /\
  generateOTP (1 - (1 # 18014398509481984))%Q = "1000000".
Proof.
  split; [by vm_compute|]. split; [by vm_compute|].
  split; [split; [vm_compute; reflexivity | split; [discriminate | reflexivity]]|].
  split; [by vm_compute|]. split; [by vm_compute|].
  split; [|by vm_compute].
  unfold is_binary64. vm_compute. discriminate.
Qed.

(** ** verifyOTP *)

(** The four ways through [verifyOTP]. *)
Lemma verifyOTP_absent (store : OtpStore) phone code now :
  store !! phone = None -> verifyOTP store phone code now = (false, store).
Proof. intros E. unfold verifyOTP. by rewrite E. Qed.

Lemma verifyOTP_expired (store : OtpStore) phone code now e :
  store !! phone = Some e -> expiresAt e <= now ->
  verifyOTP store phone code now = (false, delete phone store).
Proof.
  intros E Hexp. unfold verifyOTP. rewrite E.
  destruct (Z.leb_spec (expiresAt e) now); [done | lia].
Qed.

Lemma verifyOTP_mismatch (store : OtpStore) phone code now e :
  store !! phone = Some e -> now < expiresAt e -> otp e <> code ->
  verifyOTP store phone code now = (false, store).
Proof.
  intros E Hlive Hne. unfold verifyOTP. rewrite E.
  destruct (Z.leb_spec (expiresAt e) now); [lia|].
  destruct (String.eqb_spec (otp e) code); [done | reflexivity].
Qed.

Lemma verifyOTP_match (store : OtpStore) phone code now e :
  store !! phone = Some e -> now < expiresAt e -> otp e = code ->
  verifyOTP store phone code now = (true, delete phone store).
Proof.
  intros E Hlive Heq. unfold verifyOTP. rewrite E.
  destruct (Z.leb_spec (expiresAt e) now); [lia|].
  destruct (String.eqb_spec (otp e) code); [reflexivity | done].
Qed.

(** Which of the four ways a call takes. *)
Lemma verifyOTP_cases (store : OtpStore) phone code now :
  (store !! phone = None /\
   verifyOTP store phone code now = (false, store)) \/
  (exists e, store !! phone = Some e /\ expiresAt e <= now /\
             verifyOTP store phone code now = (false, delete phone store)) \/
  (exists e, store !! phone = Some e /\ now < expiresAt e /\ otp e <> code /\
             verifyOTP store phone code now = (false, store)) \/
  (exists e, store !! phone = Some e /\ now < expiresAt e /\ otp e = code /\
             verifyOTP store phone code now = (true, delete phone store)).
Proof.
  destruct (store !! phone) as [e|] eqn:E.
  - destruct (Z_le_gt_dec (expiresAt e) now) as [Hexp|Hlive].
    + right; left. exists e.
      repeat split; try done. by apply verifyOTP_expired with e.
    + destruct (string_dec (otp e) code) as [Heq|Hne].
      * right; right; right. exists e.
        repeat split; try done; try lia.
        apply verifyOTP_match with e; [done|lia|done].
      * right; right; left. exists e.
        repeat split; try done; try lia.
        apply verifyOTP_mismatch with e; [done|lia|done].
  - left. split; [done|]. by apply verifyOTP_absent.
Qed.

(** The timer [storeOTP] sets never removes an entry that is still live:
    it leaves every unexpired entry where it is. *)
Lemma storeOTP_timeout_keeps_live (store : OtpStore) timer_phone phone now e :
  store !! phone = Some e -> now < expiresAt e ->
  storeOTP_timeout store timer_phone now !! phone = Some e.
Proof.
  intros E Hlive. unfold storeOTP_timeout.
  destruct (store !! timer_phone) as [e'|] eqn:E'; [|done].
  destruct (Z.leb_spec (expiresAt e') now); [|done].
  destruct (decide (timer_phone = phone)) as [->|Hne].
  - rewrite E in E'. injection E' as <-. lia.
  - by rewrite lookup_delete_ne.
Qed.

(** [storeOTP] overwrites whatever the phone had. *)
Lemma storeOTP_lookup (store : OtpStore) phone code now :
  storeOTP store phone code now !! phone
  = Some {| otp := code; expiresAt := now + five_minutes |}.
Proof. apply lookup_insert_eq. Qed.

(** The scenario of the specification: a code is issued; a wrong code
    is refused, the right one accepted within five minutes, and the
    same code refused when sent again. *)
Example otp_scenario :
  let s0 := storeOTP ∅ "+9779841234567" "482913" 0 in
  let '(r1, s1) := verifyOTP s0 "+9779841234567" "111111" 60000 in
  let '(r2, s2) := verifyOTP s1 "+9779841234567" "482913" 120000 in
  let '(r3, s3) := verifyOTP s2 "+9779841234567" "482913" 120001 in
  (r1, r2, r3) = (false, true, false) /\ s1 = s0 /\ s2 = ∅ /\ s3 = ∅.
Proof. vm_compute. done. Qed.

(** A code is refused from the moment its five minutes are over. *)
Lemma verifyOTP_after_window (store : OtpStore) phone code issued now :
  issued + five_minutes <= now ->
  fst (verifyOTP (storeOTP store phone code issued) phone code now) = false.
Proof.
  intros Hlate.
  rewrite (verifyOTP_expired _ phone code now _ (storeOTP_lookup _ _ _ _));
    [done | simpl; lia].
Qed.

(** ** C3 *)

(** C3: [verifyOTP] returns true exactly when the ledger has an entry
    for the phone, the entry has not expired and its code is the one
    supplied; when it returns true the entry has been deleted, so that
    verifying the same phone and code again, at whatever time, returns
    false (and changes nothing). *)
Theorem C3_verifyOTP_iff_live_match_and_single_use
    (store : OtpStore) (phone code : string) (now : Z) :
  (fst (verifyOTP store phone code now) = true <->
   exists e, store !! phone = Some e /\ now < expiresAt e /\ otp e = code) /\
  (fst (verifyOTP store phone code now) = true ->
   snd (verifyOTP store phone code now) = delete phone store /\
   snd (verifyOTP store phone code now) !! phone = None /\
   forall now',
     verifyOTP (snd (verifyOTP store phone code now)) phone code now'
     = (false, snd (verifyOTP store phone code now))).
Proof.
  destruct (verifyOTP_cases store phone code now)
    as [[E R]|[(e & E & H1 & R)|[(e & E & H1 & H2 & R)|(e & E & H1 & H2 & R)]]];
    rewrite R; simpl.
  - split; [split|]; try discriminate.
    intros (e & E' & _). congruence.
  - split; [split|]; try discriminate.
    intros (e' & E' & Hl & _). assert (e' = e) by congruence. subst. lia.
  - split; [split|]; try discriminate.
    intros (e' & E' & _ & Hc). assert (e' = e) by congruence. subst. done.
  - split; [split|].
    + intros _. exists e. done.
    + reflexivity.
    + intros _. split; [done|]. split; [apply lookup_delete_eq|].
      intros now'. apply verifyOTP_absent, lookup_delete_eq.
Qed.

(** ** C10 *)

(** C10: against an unexpired entry a wrong code is answered false and
    the ledger is left exactly as it was, so the right code still
    verifies at any later moment before the expiry; and whenever a
    false answer did change the ledger, the entry had expired. *)
Theorem C10_wrong_code_leaves_ledger_unchanged
    (store : OtpStore) (phone code : string) (now : Z) (e : OtpEntry) :
  store !! phone = Some e ->
  now < expiresAt e ->
  otp e <> code ->
  verifyOTP store phone code now = (false, store) /\
  (forall now', now' < expiresAt e ->
     verifyOTP (snd (verifyOTP store phone code now)) phone (otp e) now'
     = (true, delete phone store)) /\
  (forall (store0 : OtpStore) phone0 code0 now0,
     fst (verifyOTP store0 phone0 code0 now0) = false ->
     snd (verifyOTP store0 phone0 code0 now0) <> store0 ->
     exists e0, store0 !! phone0 = Some e0 /\ expiresAt e0 <= now0).
Proof.
  intros E Hlive Hne.
  rewrite (verifyOTP_mismatch store phone code now e E Hlive Hne).
  split; [reflexivity|]. split.
  - intros now' Hlive'. simpl. by apply verifyOTP_match with e.
  - intros store0 phone0 code0 now0.
    destruct (verifyOTP_cases store0 phone0 code0 now0)
      as [[E0 R]|[(e0 & E0 & H1 & R)|[(e0 & E0 & H1 & H2 & R)
                                     |(e0 & E0 & H1 & H2 & R)]]];
      rewrite R; simpl; intros Hf Hch; try done.
    exists e0. done.
Qed.

Lemma C10_wrong_code_witness :
  ledger_demo !! "+9779841234567"
    = Some {| otp := "482913"; expiresAt := 300000 |} /\
  verifyOTP ledger_demo "+9779841234567" "000000" 1000 = (false, ledger_demo) /\
  verifyOTP (snd (verifyOTP ledger_demo "+9779841234567" "000000" 1000))
            "+9779841234567" "482913" 299999
  = (true, delete "+9779841234567" ledger_demo).
Proof.
  assert (E : ledger_demo !! "+9779841234567"
              = Some {| otp := "482913"; expiresAt := 300000 |})
    by apply lookup_insert_eq.
  destruct (C10_wrong_code_leaves_ledger_unchanged
              ledger_demo "+9779841234567" "000000" 1000 _ E)
    as (H1 & H2 & _); [simpl; lia | simpl; discriminate |].
  split; [exact E|]. split; [exact H1|]. apply H2. simpl. lia.
Defined.

(** ** C8 *)

Lemma verifyOTP_true_inv (store : OtpStore) phone code now :
  fst (verifyOTP store phone code now) = true ->
  verifyOTP store phone code now = (true, delete phone store).
Proof.
  destruct (verifyOTP_cases store phone code now)
    as [[E R]|[(e & E & H1 & R)|[(e & E & H1 & H2 & R)|(e & E & H1 & H2 & R)]]];
    rewrite R; simpl; intros; done.
Qed.

Lemma verifyOTP_after_delete (store : OtpStore) phone code now :
  verifyOTP (delete phone store) phone code now = (false, delete phone store).
Proof. apply verifyOTP_absent, lookup_delete_eq. Qed.

(** C8: when the validators pass, the code verifies, no account has the
    phone and no full name came with the request, [verifyOTPAndLogin]
    answers Registration Required and the ledger it leaves no longer has
    the entry; the same phone and code sent again on that ledger, with
    any full name (or none), in any environment, database and moment,
    fail verification: the answer is Invalid OTP unless the validators
    already turned the request down, and neither ledger nor database
    changes. *)
Theorem C8_registration_required_has_consumed_the_code `{Bcrypt}
    (env : Env) (store : OtpStore) (db : Db) (b : VerifyBody)
    (placeholder salt fresh_id : string) (now : Z) :
  validate_verifyOTP b = [] ->
  fst (verifyOTP store (formatNepaliPhone (verify_phone b)) (verify_otp b) now)
    = true ->
  findByPhone db (formatNepaliPhone (verify_phone b)) = None ->
  truthy_field (verify_fullName b) = false ->
  verifyOTPAndLogin env store db b placeholder salt fresh_id now
    = (registration_required,
       delete (formatNepaliPhone (verify_phone b)) store, db) /\
  delete (formatNepaliPhone (verify_phone b)) store
    !! formatNepaliPhone (verify_phone b) = None /\
  forall env' db' fullName' placeholder' salt' fresh_id' now',
    fst (verifyOTP (delete (formatNepaliPhone (verify_phone b)) store)
                   (formatNepaliPhone (verify_phone b)) (verify_otp b) now')
      = false /\
    exists answer,
      verifyOTPAndLogin env'
        (delete (formatNepaliPhone (verify_phone b)) store) db'
        {| verify_phone := verify_phone b; verify_otp := verify_otp b;
           verify_fullName := fullName' |}
        placeholder' salt' fresh_id' now'
      = (answer, delete (formatNepaliPhone (verify_phone b)) store, db') /\
      (answer = invalid_otp \/
       exists errors, errors <> [] /\ answer = validation_failed errors) /\
      (validate_verifyOTP
         {| verify_phone := verify_phone b; verify_otp := verify_otp b;
            verify_fullName := fullName' |} = [] ->
       answer = invalid_otp).
Proof.
  intros Hval Hok Hnone Hname.
  set (phone := formatNepaliPhone (verify_phone b)) in *.
  apply verifyOTP_true_inv in Hok.
  split; [|split].
  - unfold verifyOTPAndLogin. rewrite Hval. fold phone. rewrite Hok. simpl.
    rewrite Hnone, Hname. reflexivity.
  - apply lookup_delete_eq.
  - intros env' db' fullName' placeholder' salt' fresh_id' now'.
    split; [by rewrite verifyOTP_after_delete|].
    unfold verifyOTPAndLogin. simpl verify_phone. simpl verify_otp.
    fold phone. rewrite verifyOTP_after_delete.
    clear Hval.
    destruct (validate_verifyOTP _) as [|e errors] eqn:Hval'.
    + exists invalid_otp. simpl. split; [reflexivity|]. split; [by left|done].
    + eexists. split; [reflexivity|]. split; [right; eexists; split; [|reflexivity]|];
        done.
Qed.

Lemma C8_registration_required_witness :
  validate_verifyOTP
    {| verify_phone := "9841234567"; verify_otp := "482913";
       verify_fullName := None |} = [] /\
  @verifyOTPAndLogin demo_bcrypt env_development ledger_demo db_empty
    {| verify_phone := "9841234567"; verify_otp := "482913";
       verify_fullName := None |} "k3j9x0q2ab" "salt" "u-new" 1000
  = (registration_required, delete "+9779841234567" ledger_demo, db_empty) /\
  @verifyOTPAndLogin demo_bcrypt env_development
    (delete "+9779841234567" ledger_demo) db_empty
    {| verify_phone := "9841234567"; verify_otp := "482913";
       verify_fullName := Some "Alice A" |} "k3j9x0q2ab" "salt" "u-new" 2000
  = (invalid_otp, delete "+9779841234567" ledger_demo, db_empty).
Proof.
  destruct (@C8_registration_required_has_consumed_the_code demo_bcrypt
              env_development ledger_demo db_empty
              {| verify_phone := "9841234567"; verify_otp := "482913";
                 verify_fullName := None |} "k3j9x0q2ab" "salt" "u-new" 1000)
    as (H1 & _ & H3); try (vm_compute; reflexivity).
  split; [vm_compute; reflexivity|]. split; [exact H1|].
  destruct (H3 env_development db_empty (Some "Alice A")
               "k3j9x0q2ab" "salt" "u-new" 2000)
    as (_ & answer & Hrun & _ & Hvalid).
  rewrite (Hvalid ltac:(vm_compute; reflexivity)) in Hrun. exact Hrun.
Defined.

(* ================================================================== *)
(** * Properties of the auth controller                                *)
(* ================================================================== *)

Lemma findById_id db i u : findById db i = Some u -> id u = i.
Proof.
  unfold findById. intros E. apply find_some in E as [_ E].
  by apply String.eqb_eq in E.
Qed.

Lemma findByEmail_email db e u : findByEmail db e = Some u -> email u = e.
Proof.
  unfold findByEmail. intros E. apply find_some in E as [_ E].
  by apply String.eqb_eq in E.
Qed.

Lemma truthy_field_Some (o : option string) :
  truthy_field o = true -> exists k, o = Some k /\ String.eqb k "" = false.
Proof.
  destruct o as [k|]; simpl; [|discriminate].
  unfold truthy_field. simpl. intros E. exists k. split; [done|].
  by destruct (String.eqb k "").
Qed.

Lemma js_or_truthy (a b : option string) :
  truthy_field b = true -> truthy_field (js_or a b) = true.
Proof. unfold js_or. by destruct (truthy_field a) eqn:E. Qed.

Lemma jwt_sign_truthy payload secret expiresIn now :
  truthy_field secret = true ->
  exists k, secret = Some k /\
    jwt_sign payload secret expiresIn now
    = Some (Signed payload k (now / 1000) (now / 1000 + expiresIn)).
Proof.
  intros E. apply truthy_field_Some in E as (k & -> & Hk).
  exists k. split; [done|]. unfold jwt_sign. by rewrite Hk.
Qed.

Lemma jwt_sign_claims payload secret expiresIn now t :
  jwt_sign payload secret expiresIn now = Some t ->
  token_claims t = Some payload.
Proof.
  unfold jwt_sign. destruct secret as [k|]; [|discriminate].
  destruct (String.eqb k ""); [discriminate|]. by intros [= <-].
Qed.

Lemma jwt_verify_truthy t secret now claims :
  jwt_verify t secret now = inr claims -> truthy_token t = true.
Proof. destruct t; simpl; [discriminate | done]. Qed.

(** A token verifies under the secret it was signed with until it
    expires, and under no other secret. *)
Lemma jwt_verify_sign payload secret expiresIn issued t now :
  jwt_sign payload secret expiresIn issued = Some t ->
  now / 1000 < issued / 1000 + expiresIn ->
  jwt_verify t secret now = inr payload.
Proof.
  unfold jwt_sign. destruct secret as [k|]; [|discriminate].
  destruct (String.eqb k "") eqn:Hk; [discriminate|].
  intros [= <-] Hlive. simpl. rewrite Hk, String.eqb_refl. simpl.
  destruct (Z.leb_spec (issued / 1000 + expiresIn) (now / 1000)); [lia|done].
Qed.

Lemma jwt_verify_other_secret payload key iat exp k now :
  k <> key ->
  exists msg,
    jwt_verify (Signed payload key iat exp) (Some k) now
    = inl (JsonWebTokenError msg).
Proof.
  intros Hne. simpl. destruct (String.eqb k ""); [eauto|].
  destruct (String.eqb_spec k key); [done|]. simpl. eauto.
Qed.

(** What a successful [generateTokens] returns: the access token
    carries the id and the name of the role it was given, the refresh
    token the id alone. *)
Lemma generateTokens_inr env uid role now tokens :
  generateTokens env uid role now = inr tokens ->
  exists r, role = Some r /\
    token_claims (accessToken tokens)
      = Some {| claim_id := uid; claim_role := JString (roleName r) |} /\
    token_claims (refreshToken tokens)
      = Some {| claim_id := uid; claim_role := JUndefined |}.
Proof.
  unfold generateTokens. destruct role as [r|]; [|discriminate].
  destruct (jwt_sign _ (JWT_SECRET env) _ _) as [access|] eqn:Ea;
    [|discriminate].
  destruct (jwt_sign _ (js_or _ _) _ _) as [refresh|] eqn:Er; [|discriminate].
  intros [= <-]. exists r. simpl. split; [done|].
  split; eapply jwt_sign_claims; eassumption.
Qed.

(** [generateTokens] succeeds as soon as the role is there and
    [JWT_SECRET] is set. *)
Lemma generateTokens_ok env uid r now :
  truthy_field (JWT_SECRET env) = true ->
  exists tokens, generateTokens env uid (Some r) now = inr tokens.
Proof.
  intros Hs. unfold generateTokens.
  destruct (jwt_sign_truthy
              {| claim_id := uid; claim_role := Role_get r "roleName" |}
              _ one_hour now Hs) as (k & _ & ->).
  destruct (jwt_sign_truthy
              {| claim_id := uid; claim_role := JUndefined |}
              _ seven_days now
              (js_or_truthy (JWT_REFRESH_SECRET env) _ Hs)) as (k' & _ & ->).
  eauto.
Qed.

(** ** C1 *)



(** ** C4 *)

(** C4: a login request that passes the validators and fails, either
    because no account has the email or because the password does not
    match the stored hash, is answered 401 with the error Unauthorized
    and the message "Invalid email or password"; hence two such
    failures, whatever their cause, environment, database and moment,
    get the same response. *)
Theorem C4_login_failures_are_indistinguishable `{Bcrypt} `{ValidatorJs}
    (env : Env) (db : Db) (b : LoginBody) (now : Z) :
  validate_login b = [] ->
  (findByEmail db (login_email b) = None \/
   exists user, findByEmail db (login_email b) = Some user /\
                bcrypt_compare (login_password b) (password_hash user) = false) ->
  login env db b now
    = Respond 401 (error_body "Unauthorized" "Invalid email or password") /\
  (forall env' db' now',
     (findByEmail db' (login_email b) = None \/
      exists user, findByEmail db' (login_email b) = Some user /\
                   bcrypt_compare (login_password b) (password_hash user)
                   = false) ->
     login env' db' b now' = login env db b now).
Proof.
  assert (Hfail : forall env0 db0 now0,
             validate_login b = [] ->
             (findByEmail db0 (login_email b) = None \/
              exists user, findByEmail db0 (login_email b) = Some user /\
                bcrypt_compare (login_password b) (password_hash user) = false) ->
             login env0 db0 b now0
             = Respond 401
                 (error_body "Unauthorized" "Invalid email or password")).
  { intros env0 db0 now0 Hval [Hnone|(user & Hsome & Hcmp)];
      unfold login; rewrite Hval.
    - by rewrite Hnone.
    - by rewrite Hsome, Hcmp. }
  intros Hval Hcause. split; [by apply Hfail|].
  intros env' db' now' Hcause'. by rewrite !Hfail.
Qed.

Lemma C4_login_failures_witness :
  @login demo_bcrypt demo_validator env_development db_alice
    {| login_email := "alice@x.com"; login_password := "wrong-password" |} 0
  = Respond 401 (error_body "Unauthorized" "Invalid email or password") /\
  @login demo_bcrypt demo_validator env_development db_empty
    {| login_email := "alice@x.com"; login_password := "wrong-password" |} 7
  = @login demo_bcrypt demo_validator env_development db_alice
      {| login_email := "alice@x.com"; login_password := "wrong-password" |} 0.
Proof.
  destruct (@C4_login_failures_are_indistinguishable
              demo_bcrypt demo_validator env_development db_alice
              {| login_email := "alice@x.com";
                 login_password := "wrong-password" |} 0)
    as [Hknown Hsame].
  - reflexivity.
  - right. exists alice. split; reflexivity.
  - split; [exact Hknown|]. apply Hsame. left. reflexivity.
Defined.

(** ** C6 and C9: the password hook and what is persisted *)

Lemma indexOf_zero_prefix (s pat : string) :
  (indexOf s pat =? 0) = String.prefix pat s.
Proof.
  unfold indexOf. destruct s as [|c s']; simpl.
  - destruct pat; reflexivity.
  - destruct pat as [|a pat']; [reflexivity|].
    destruct (ascii_dec a c) as [_|_];
      [destruct (String.prefix pat' s'); [reflexivity|]|];
      (destruct (index 0 (String a pat') s') as [n|]; [|reflexivity];
       apply Z.eqb_neq; lia).
Qed.

(** The hook, in one equation: a non-empty value that does not begin
    with [$2b$] is replaced by its bcrypt hash, anything else is kept. *)
Lemma hashPassword_spec `{Bcrypt} (salt p : string) :
  hashPassword salt (Some p)
  = Some (if negb (String.eqb p "") && negb (String.prefix "$2b$" p)
          then bcrypt_hash p 10 salt else p).
Proof.
  unfold hashPassword. simpl truthy. rewrite indexOf_zero_prefix.
  by destruct (negb (String.eqb p "") && negb (String.prefix "$2b$" p)).
Qed.

Lemma isLength_min_8_nonempty (s : string) :
  isLength_min 8 s = true -> String.eqb s "" = false.
Proof. destruct s; [discriminate | reflexivity]. Qed.

Lemma password_policy_nonempty (s : string) :
  password_policy s = true -> String.eqb s "" = false.
Proof.
  unfold password_policy. intros E.
  apply andb_prop in E as [E _]. apply andb_prop in E as [E _].
  by apply isLength_min_8_nonempty.
Qed.

Lemma check_nil ok msg : check ok msg = [] <-> ok = true.
Proof. destruct ok; simpl; split; done. Qed.

Lemma app_nil_inv {A} (l1 l2 : list A) :
  (l1 ++ l2 = [])%list -> l1 = [] /\ l2 = [].
Proof. destruct l1; simpl; [done | discriminate]. Qed.

(** The change-password chains pass exactly when the current password
    is non-empty, the new one meets the policy, and the two differ. *)
Lemma validate_changePassword_nil (b : ChangePasswordBody) :
  validate_changePassword b = [] <->
  currentPassword b <> "" /\
  password_policy (newPassword b) = true /\
  newPassword b <> currentPassword b.
Proof.
  unfold validate_changePassword, password_policy, notEmpty.
  destruct (String.eqb_spec (currentPassword b) "") as [E1|E1];
  destruct (String.eqb_spec (newPassword b) (currentPassword b)) as [E2|E2];
  destruct (isLength_min 8 (newPassword b));
  destruct (matches_letter (newPassword b));
  destruct (matches_digit (newPassword b)); simpl; split;
    try discriminate; try done; intros (? & ? & ?); done.
Qed.

(** The register chains pass only for a password that meets the policy. *)
Lemma validate_register_policy `{ValidatorJs} (b : RegisterBody) :
  validate_register b = [] -> password_policy (reg_password b) = true.
Proof.
  unfold validate_register, password_policy. intros E.
  apply app_nil_inv in E as [_ E].
  apply app_nil_inv in E as [E1 E]. apply app_nil_inv in E as [E2 E].
  apply app_nil_inv in E as [E3 _].
  apply check_nil in E1, E2, E3. by rewrite E1, E2, E3.
Qed.

(** The row [uid] after [save_password]. *)
Lemma save_password_lookup `{Bcrypt} db uid p salt user :
  findById db uid = Some user ->
  findById (save_password db uid p salt) uid
  = Some {| id := id user; email := email user;
            password_hash :=
              (if negb (String.eqb p "") && negb (String.prefix "$2b$" p)
               then bcrypt_hash p 10 salt else p);
            fullName := fullName user; phone := phone user;
            roleId := roleId user |}.
Proof.
  unfold save_password. rewrite hashPassword_spec.
  remember (if negb (String.eqb p "") && negb (String.prefix "$2b$" p)
            then bcrypt_hash p 10 salt else p) as h eqn:Hh. clear Hh.
  unfold findById. simpl. induction (users db) as [|u us IH]; simpl.
  - discriminate.
  - destruct (String.eqb (id u) uid) eqn:E; simpl.
    + rewrite E. by intros [= ->].
    + rewrite E. exact IH.
Qed.

(** What a successful INSERT stored. *)
Lemma save_new_inr `{Bcrypt} db d salt fresh_id u db' :
  save_new db d salt fresh_id = inr (u, db') ->
  exists p,
    draft_password_hash d = Some p /\
    draft_email d = Some (email u) /\
    users db' = (users db ++ [u])%list /\
    id u = fresh_id /\
    password_hash u
    = (if negb (String.eqb p "") && negb (String.prefix "$2b$" p)
       then bcrypt_hash p 10 salt else p).
Proof.
  unfold save_new.
  destruct (draft_email d) as [e|]; [|discriminate].
  destruct (draft_password_hash d) as [p|]; [|discriminate].
  rewrite hashPassword_spec.
  destruct (draft_fullName d) as [n|]; [|discriminate].
  destruct (draft_role d) as [r|]; [|discriminate].
  destruct (findByEmail db e); [discriminate|].
  intros [= <- <-]. exists p. done.
Qed.




(** The route behind [authMiddleware]: an authenticated request runs the
    controller with the id of a user the database has. *)
Lemma changePassword_route_authenticated `{Bcrypt}
    env db authorization b salt now u :
  authMiddleware env db authorization now = inr u ->
  changePassword_route env db authorization b salt now
    = changePassword db (ru_id u) b salt /\
  exists user, findById db (ru_id u) = Some user.
Proof.
  intros Hauth. unfold changePassword_route. rewrite Hauth.
  split; [reflexivity|]. revert Hauth. unfold authMiddleware.
  repeat (case_match; try discriminate).
  intros [= <-]. simpl.
  match goal with
  | Hu : findById db ?i = Some ?user |- _ =>
      exists user; by rewrite (findById_id _ _ _ Hu)
  end.
Qed.

(** ** C6 *)

(** C6: for an authenticated user whose current password matches the
    stored hash, the request is turned down (400, database untouched)
    when the new password equals the current one or fails the policy of
    8 characters with a letter and a digit; it is answered 200 only if
    the new password differs from the current one and meets the policy,
    and then the database is the old one with this user's row saved
    through the password hook; and it is answered 200 whenever those
    conditions hold (the current password being non-empty), the row then
    holding the hook's output for the new password. *)
Theorem C6_changePassword_rejects_same_or_weak `{Bcrypt}
    (db : Db) (uid : string) (b : ChangePasswordBody) (salt : string)
    (user : User) :
  findById db uid = Some user ->
  bcrypt_compare (currentPassword b) (password_hash user) = true ->
  (newPassword b = currentPassword b \/
   password_policy (newPassword b) = false ->
   exists errors, errors <> [] /\
     changePassword db uid b salt = (validation_failed errors, db)) /\
  (forall body db',
     changePassword db uid b salt = (Respond 200 body, db') ->
     newPassword b <> currentPassword b /\
     password_policy (newPassword b) = true /\
     db' = save_password db uid (newPassword b) salt) /\
  (newPassword b <> currentPassword b ->
   password_policy (newPassword b) = true ->
   currentPassword b <> "" ->
   changePassword db uid b salt
   = (Respond 200 [("message", JStr "Password changed successfully")],
      save_password db uid (newPassword b) salt) /\
   findById (save_password db uid (newPassword b) salt) uid
   = Some {| id := id user; email := email user;
             password_hash :=
               (if String.prefix "$2b$" (newPassword b) then newPassword b
                else bcrypt_hash (newPassword b) 10 salt);
             fullName := fullName user; phone := phone user;
             roleId := roleId user |}).
Proof.
  intros Hu Hcmp. pose proof (findById_id _ _ _ Hu) as Hid. subst uid.
  pose proof (validate_changePassword_nil b) as Hval.
  unfold changePassword.
  destruct (validate_changePassword b) as [|e errors] eqn:Ev.
  - destruct (proj1 Hval eq_refl) as (Hcur & Hpol & Hdiff).
    rewrite Hu, Hcmp. simpl.
    split; [|split].
    + intros [Hsame|Hweak]; [done | congruence].
    + intros body db' [= _ <-]. done.
    + intros _ _ _. split; [reflexivity|].
      rewrite (save_password_lookup _ _ _ _ _ Hu).
      rewrite (password_policy_nonempty _ Hpol). cbn [negb andb].
      by destruct (String.prefix "$2b$" (newPassword b)).
  - split; [|split].
    + intros _. exists (e :: errors). done.
    + intros body db'. unfold validation_failed. discriminate.
    + intros Hdiff Hpol Hcur.
      assert (e :: errors = []) by (apply Hval; done). discriminate.
Qed.

Lemma C6_changePassword_witness :
  (exists errors, errors <> [] /\
     @changePassword demo_bcrypt db_alice "u-alice"
       {| currentPassword := "Passw0rd!"; newPassword := "Passw0rd!" |} "s2"
     = (validation_failed errors, db_alice)) /\
  @changePassword demo_bcrypt db_alice "u-alice"
    {| currentPassword := "Passw0rd!"; newPassword := "N3wPassw0rd" |} "s2"
  = (Respond 200 [("message", JStr "Password changed successfully")],
     @save_password demo_bcrypt db_alice "u-alice" "N3wPassw0rd" "s2").
Proof.
  split.
  - destruct (@C6_changePassword_rejects_same_or_weak
                demo_bcrypt db_alice "u-alice"
                {| currentPassword := "Passw0rd!"; newPassword := "Passw0rd!" |}
                "s2" alice eq_refl eq_refl) as (Hrej & _ & _).
    exact (Hrej (or_introl eq_refl)).
  - destruct (@C6_changePassword_rejects_same_or_weak
                demo_bcrypt db_alice "u-alice"
                {| currentPassword := "Passw0rd!"; newPassword := "N3wPassw0rd" |}
                "s2" alice eq_refl eq_refl) as (_ & _ & Hok).
    apply Hok; [discriminate | reflexivity | discriminate].
Defined.

(** The length the validators measure is in characters: seven
    characters are too few for a password though they take nine bytes,
    eight are enough, and a variation selector does not count; a name
    of one two-byte character is too short, and a name of 35 characters
    in 97 bytes has length 35. *)
Example changePassword_counts_characters :
  String.length "ñandú12" = 9%nat /\
  @changePassword demo_bcrypt db_alice "u-alice"
    {| currentPassword := "Passw0rd!"; newPassword := "ñandú12" |} "s2"
  = (validation_failed ["New password must be at least 8 characters long"],
     db_alice) /\
  fst (@changePassword demo_bcrypt db_alice "u-alice"
         {| currentPassword := "Passw0rd!"; newPassword := "ñandú123" |} "s2")
  = Respond 200 [("message", JStr "Password changed successfully")] /\
  isLength_min 8
    ("passw0r"
     +:+ String (ascii_of_nat 239)
           (String (ascii_of_nat 184) (String (ascii_of_nat 143) "")))
  = false /\
  isLength 2 100 "ñ" = false /\
  String.length "श्रीमान् रामबहादुर श्रेष्ठ थापा मगर" = 97%nat /\
  isLength 35 35 "श्रीमान् रामबहादुर श्रेष्ठ थापा मगर" = true.
Proof. repeat split; reflexivity. Qed.

(** ** C9 *)



(** A registration whose password begins with [$2b$]: stored as sent. *)
Example register_bcrypt_looking_password :
  snd (@register demo_bcrypt demo_validator env_development db_empty
         {| reg_email := "bob@x.com"; reg_password := "$2b$10$abcdefgh";
            reg_fullName := "Bob B"; reg_phone := None; reg_roleId := None |}
         "salt" "u-bob" 0)
  = {| users := [ {| id := "u-bob"; email := "bob@x.com";
                     password_hash := "$2b$10$abcdefgh";
                     fullName := "Bob B"; phone := None; roleId := 2 |} ];
       roles := seeded_roles |}.
Proof. reflexivity. Qed.

(** ** C7 *)

(** C7, counterexample: outside production the response to
    [forgotPassword] for a registered email carries a reset token and
    the response for an unregistered one does not. *)
Lemma C7_counterexample :
  forgotPassword env_development db_alice "alice@x.com" 0
  <> forgotPassword env_development db_empty "alice@x.com" 0.
Proof. vm_compute. discriminate. Qed.

(** C7, as amended: with [NODE_ENV] set to production and a secret to
    sign the reset token with, the response to [forgotPassword] is 200
    with the generic message and nothing else, whether or not the email
    is registered. In any environment an unregistered email is answered
    with exactly that response; outside production a registered email
    (a signing secret being configured) is answered 200 with the generic
    message followed by the field [resetToken], a token that carries the
    account's id, so that the two responses differ. A response, when one
    is sent, is always one of these two. *)
Theorem C7_forgotPassword_generic_in_production
    (env : Env) (db db' : Db) (email : string) (now now' : Z) :
  is_production env = true ->
  truthy_field (js_or (JWT_RESET_SECRET env) (JWT_SECRET env)) = true ->
  forgotPassword env db email now
    = Respond 200 [("message", JStr forgot_message)] /\
  forgotPassword env db email now = forgotPassword env db' email now' /\
  (forall env0 db0 now0,
     findByEmail db0 email = None ->
     forgotPassword env0 db0 email now0
     = Respond 200 [("message", JStr forgot_message)]) /\
  (forall env0 db0 now0 user,
     is_production env0 = false ->
     truthy_field (js_or (JWT_RESET_SECRET env0) (JWT_SECRET env0)) = true ->
     findByEmail db0 email = Some user ->
     exists resetToken,
       forgotPassword env0 db0 email now0
       = Respond 200 [("message", JStr forgot_message);
                      ("resetToken", JTok resetToken)] /\
       token_claims resetToken
       = Some {| claim_id := id user; claim_role := JUndefined |} /\
       forgotPassword env0 db0 email now0
       <> Respond 200 [("message", JStr forgot_message)]) /\
  (forall env0 db0 now0 status body,
     forgotPassword env0 db0 email now0 = Respond status body ->
     status = 200 /\
     (body = [("message", JStr forgot_message)] \/
      exists user resetToken,
        findByEmail db0 email = Some user /\
        is_production env0 = false /\
        token_claims resetToken
          = Some {| claim_id := id user; claim_role := JUndefined |} /\
        body = [("message", JStr forgot_message);
                ("resetToken", JTok resetToken)])).
Proof.
  intros Hprod Hsecret.
  assert (Hgen : forall d n,
             forgotPassword env d email n
             = Respond 200 [("message", JStr forgot_message)]).
  { intros d n. unfold forgotPassword.
    destruct (findByEmail d email) as [user|]; [|reflexivity].
    destruct (jwt_sign_truthy
                {| claim_id := id user; claim_role := JUndefined |}
                _ one_hour n Hsecret) as (k & _ & ->).
    by rewrite Hprod. }
  split; [apply Hgen|]. split; [by rewrite !Hgen|].
  split; [|split].
  - intros env0 db0 now0 Hnone. unfold forgotPassword. by rewrite Hnone.
  - intros env0 db0 now0 user Hdev Hsecret0 Hu. unfold forgotPassword.
    rewrite Hu.
    destruct (jwt_sign_truthy
                {| claim_id := id user; claim_role := JUndefined |}
                _ one_hour now0 Hsecret0) as (k & _ & ->).
    rewrite Hdev. eexists. split; [reflexivity|]. split; [reflexivity|].
    discriminate.
  - intros env0 db0 now0 status body. unfold forgotPassword.
    destruct (findByEmail db0 email) as [user|] eqn:Hu.
    + destruct (jwt_sign _ _ _ _) as [resetToken|] eqn:Hsign; [|discriminate].
      apply jwt_sign_claims in Hsign.
      destruct (is_production env0) eqn:Hp; simpl; intros [= <- <-];
        (split; [reflexivity|]); [by left|].
      right. exists user, resetToken. done.
    + intros [= <- <-]. split; [reflexivity | by left].
Qed.

Lemma C7_forgotPassword_production_witness :
  forgotPassword env_production db_alice "alice@x.com" 0
    = Respond 200 [("message", JStr forgot_message)] /\
  forgotPassword env_production db_alice "alice@x.com" 0
    = forgotPassword env_production db_empty "alice@x.com" 9.
Proof.
  destruct (C7_forgotPassword_generic_in_production
              env_production db_alice db_empty "alice@x.com" 0 9
              eq_refl eq_refl) as (H1 & H2 & _).
  split; [exact H1 | exact H2].
Defined.

(** Outside production the same two requests are told apart by the
    reset token in the first response. *)
Example forgotPassword_development :
  forgotPassword env_development db_alice "alice@x.com" 0
  = Respond 200
      [("message", JStr forgot_message);
       ("resetToken",
        JTok (Signed {| claim_id := id alice; claim_role := JUndefined |}
                     "access-secret" 0 3600))] /\
  forgotPassword env_development db_empty "alice@x.com" 0
  = Respond 200 [("message", JStr forgot_message)].
Proof. split; reflexivity. Qed.

(* ================================================================== *)
(** * Properties of the middleware                                     *)
(* ================================================================== *)

Lemma includes_In (arr : list string) (r : string) :
  includes arr (JString r) = true <-> In r arr.
Proof.
  unfold includes. rewrite existsb_exists. split.
  - intros (x & Hin & E). simpl in E. apply String.eqb_eq in E. by subst.
  - intros Hin. exists r. split; [done|]. simpl. apply String.eqb_refl.
Qed.

(** The guard on its own: no [req.user], or a falsy role, is 401; a role
    in the list passes; a role outside it is 403. *)
Lemma rbacMiddleware_no_user allowedRoles :
  rbacMiddleware allowedRoles None
  = Some (unauthorized "Authentication required before role verification.").
Proof. reflexivity. Qed.

Lemma rbacMiddleware_falsy_role allowedRoles u :
  truthy (ru_role u) = false ->
  rbacMiddleware allowedRoles (Some u)
  = Some (unauthorized "Authentication required before role verification.").
Proof. intros E. unfold rbacMiddleware. by rewrite E. Qed.

Lemma rbacMiddleware_allowed allowedRoles u r :
  ru_role u = JString r -> r <> "" -> In r allowedRoles ->
  rbacMiddleware allowedRoles (Some u) = None.
Proof.
  intros E Hr Hin. unfold rbacMiddleware. rewrite E. simpl truthy.
  destruct (String.eqb_spec r ""); [done|]. simpl.
  by rewrite (proj2 (includes_In allowedRoles r) Hin).
Qed.

Lemma rbacMiddleware_forbidden allowedRoles u r :
  ru_role u = JString r -> r <> "" -> ~ In r allowedRoles ->
  rbacMiddleware allowedRoles (Some u) = Some forbidden.
Proof.
  intros E Hr Hin. unfold rbacMiddleware. rewrite E. simpl truthy.
  destruct (String.eqb_spec r ""); [done|]. simpl.
  destruct (includes allowedRoles (JString r)) eqn:Ei; [|done].
  by apply includes_In in Ei.
Qed.

(** What [authMiddleware] attaches: the id of an existing user, and a
    [role] read from the property [role_name], which a [Role] entity
    does not have. *)
Lemma authMiddleware_attaches env db authorization now u :
  authMiddleware env db authorization now = inr u ->
  ru_role u = JUndefined /\ ru_fullName u = JUndefined /\
  exists user, findById db (ru_id u) = Some user /\ id user = ru_id u.
Proof.
  unfold authMiddleware.
  destruct authorization as [words|]; [|discriminate].
  destruct (header_is_empty words); [discriminate|].
  destruct (nth_error words 1) as [token|]; [|discriminate].
  destruct (truthy_token token); simpl; [|discriminate].
  destruct (jwt_verify token (JWT_SECRET env) now) as [e|decoded].
  { destruct (String.eqb (exn_name e) "JsonWebTokenError"); [discriminate|].
    destruct (String.eqb (exn_name e) "TokenExpiredError"); discriminate. }
  destruct (findById db (claim_id decoded)) as [user|] eqn:Hu; [|discriminate].
  destruct (roleOf db user); [|discriminate].
  intros [= <-]. simpl. split; [reflexivity|]. split; [reflexivity|].
  exists user. split; [|reflexivity].
  by rewrite (findById_id _ _ _ Hu).
Qed.

(** An authenticated request on a role-gated route is always answered
    401 by the guard, whatever the allowed roles and the user's role. *)
Lemma role_gated_route_authenticated allowedRoles env db authorization now u :
  authMiddleware env db authorization now = inr u ->
  role_gated_route allowedRoles env db authorization now
  = inl (unauthorized "Authentication required before role verification.").
Proof.
  intros Hauth. unfold role_gated_route. rewrite Hauth.
  apply authMiddleware_attaches in Hauth as (Hrole & _).
  rewrite rbacMiddleware_falsy_role; [done|]. by rewrite Hrole.
Qed.

(** No request gets through a role-gated route or is answered 403. *)
Lemma role_gated_route_never_403 allowedRoles env db authorization now :
  role_gated_route allowedRoles env db authorization now <> inl forbidden /\
  forall u,
    role_gated_route allowedRoles env db authorization now <> inr u.
Proof.
  destruct (authMiddleware env db authorization now) as [answered|u] eqn:Hauth.
  - unfold role_gated_route. rewrite Hauth. split; [|discriminate].
    intros [= ->]. revert Hauth. unfold authMiddleware.
    repeat (case_match; try discriminate).
  - rewrite (role_gated_route_authenticated _ _ _ _ _ _ Hauth).
    split; [|discriminate]. discriminate.
Qed.

(** A verified token whose account and role row exist does authenticate. *)
Lemma authMiddleware_accepts env db words token now decoded user role :
  header_is_empty words = false ->
  nth_error words 1 = Some token ->
  jwt_verify token (JWT_SECRET env) now = inr decoded ->
  findById db (claim_id decoded) = Some user ->
  roleOf db user = Some role ->
  exists u, authMiddleware env db (Some words) now = inr u /\
            ru_id u = id user.
Proof.
  intros Hne Hnth Hv Hu Hr. unfold authMiddleware.
  rewrite Hne, Hnth, (jwt_verify_truthy _ _ _ _ Hv), Hv, Hu, Hr. simpl.
  eauto.
Qed.

(** ** C5 *)

(** C5, where the code departs from the claim: Alice holds the role psr
    and logs in; her access token verifies and carries the role psr. On
    the route guarded by [rbacMiddleware(['admin'])] after
    [authMiddleware], the request bearing that token is answered 401
    Unauthorized by the guard, not 403 Forbidden: [authMiddleware]
    fills [req.user.role] from [user.role.role_name], a property the
    [Role] entity (which declares [roleName]) does not have, so the
    guard finds no role. The guard alone, given a role outside the
    allowed list, does answer 403. *)
Theorem C5_valid_psr_token_on_admin_route_is_answered_401 :
  exists issued,
    generateTokens env_development (id alice) (roleOf db_alice alice) 0
      = inr issued /\
    jwt_verify (accessToken issued) (JWT_SECRET env_development) 1000
      = inr {| claim_id := "u-alice"; claim_role := JString "psr" |} /\
    role_gated_route ["admin"] env_development db_alice
      (Some [Opaque "Bearer"; accessToken issued]) 1000
      = inl (unauthorized "Authentication required before role verification.")
    /\
    rbacMiddleware ["admin"]
      (Some {| ru_id := "u-alice"; ru_email := JString "alice@x.com";
               ru_fullName := JString "Alice A"; ru_role := JString "psr" |})
      = Some forbidden.
Proof.
  eexists. split; [reflexivity|]. split; [reflexivity|].
  split; reflexivity.
Qed.

(* ================================================================== *)
(** * Further properties: phone numbers                                *)
(* ================================================================== *)

Lemma strip_prefix_Some p s rest :
  strip_prefix p s = Some rest -> s = p +:+ rest.
Proof.
  revert s. induction p as [|a p IH]; intros s; simpl.
  - by intros [= ->].
  - destruct s as [|b s]; [discriminate|].
    destruct (Ascii.eqb_spec a b) as [->|]; [|discriminate].
    intros E. by rewrite (IH _ E).
Qed.

Lemma remove_non_digits_id s :
  string_forall is_digit s = true -> remove_non_digits s = s.
Proof.
  induction s as [|c s IH]; simpl; [done|].
  intros E. apply andb_prop in E as [Hc Hs]. rewrite Hc. by rewrite IH.
Qed.

Lemma remove_non_digits_digits s :
  string_forall is_digit (remove_non_digits s) = true.
Proof.
  induction s as [|c s IH]; simpl; [done|].
  destruct (is_digit c) eqn:Hc; simpl; [by rewrite Hc|done].
Qed.

(** The shape of a string [[9][6-9]\d{8}] accepts. *)
Lemma matches_local_number_inv n :
  matches_local_number n = true ->
  exists c2 rest,
    n = String "9" (String c2 rest) /\
    is_digit c2 = true /\
    String.length rest = 8%nat /\
    string_forall is_digit rest = true.
Proof.
  destruct n as [|c1 [|c2 rest]]; simpl; try discriminate.
  intros E. apply andb_prop in E as [E Hd]. apply andb_prop in E as [E Hl].
  apply andb_prop in E as [H9 Hc]. apply andb_prop in Hc as [Hlo Hhi].
  apply Ascii.eqb_eq in H9 as ->. apply Nat.eqb_eq in Hl.
  exists c2, rest. repeat split; try done.
  unfold is_digit. apply andb_true_intro. split; apply Z.leb_le;
    apply Z.leb_le in Hlo, Hhi; lia.
Qed.

(** The four spellings the validator accepts for a local number [n]:
    with [+977], [977] or [0] in front they are all formatted as [+977]
    followed by [n]; the bare number is too, unless it begins with 977
    itself, in which case it only gets a [+] in front. *)
Lemma formatNepaliPhone_spellings n :
  matches_local_number n = true ->
  formatNepaliPhone ("+977" +:+ n) = "+977" +:+ n /\
  formatNepaliPhone ("977" +:+ n) = "+977" +:+ n /\
  formatNepaliPhone ("0" +:+ n) = "+977" +:+ n /\
  formatNepaliPhone n
  = (if String.prefix "977" n then "+" +:+ n else "+977" +:+ n).
Proof.
  intros Hn.
  destruct (matches_local_number_inv n Hn) as (c2 & rest & -> & Hc2 & Hl & Hd).
  assert (Hid : remove_non_digits (String "9" (String c2 rest))
                = String "9" (String c2 rest)).
  { apply remove_non_digits_id. simpl. by rewrite Hc2, Hd. }
  unfold formatNepaliPhone.
  change (remove_non_digits ("+977" +:+ String "9" (String c2 rest)))
    with ("977" +:+ remove_non_digits (String "9" (String c2 rest))).
  change (remove_non_digits ("977" +:+ String "9" (String c2 rest)))
    with ("977" +:+ remove_non_digits (String "9" (String c2 rest))).
  change (remove_non_digits ("0" +:+ String "9" (String c2 rest)))
    with ("0" +:+ remove_non_digits (String "9" (String c2 rest))).
  rewrite Hid. split; [reflexivity|]. split; [reflexivity|].
  split; [reflexivity|].
  destruct (String.prefix "977" (String "9" (String c2 rest))); [reflexivity|].
  change (String.prefix "0" (String "9" (String c2 rest))) with false.
  cbn [String.length]. by rewrite Hl.
Qed.

(** X1: Every phone the validator accepts is one of four spellings of a
    ten-digit local number [n]: [+977 n], [977 n], [0 n] or [n] alone.
    Each is formatted as [+977] followed by [n]; the one exception is a
    bare local number that itself begins with 977, which is taken to
    carry the country code already and only gets a [+] in front. *)
Theorem formatNepaliPhone_of_accepted_phone (phone : string) :
  matches_nepali_phone phone = true ->
  exists n,
    matches_local_number n = true /\
    String.length n = 10%nat /\
    (((phone = "+977" +:+ n \/ phone = "977" +:+ n \/ phone = "0" +:+ n \/
       (phone = n /\ String.prefix "977" n = false)) /\
      formatNepaliPhone phone = "+977" +:+ n) \/
     (phone = n /\ String.prefix "977" n = true /\
      formatNepaliPhone phone = "+" +:+ n)).
Proof.
  unfold matches_nepali_phone. cbn [existsb]. intros E.
  assert (Hlen : forall n, matches_local_number n = true ->
                           String.length n = 10%nat).
  { intros n Hn.
    destruct (matches_local_number_inv n Hn) as (c2 & rest & -> & _ & Hl & _).
    simpl. by rewrite Hl. }
  repeat (apply orb_prop in E as [E|E]); [| | | |discriminate E].
  - destruct (strip_prefix "+977" phone) as [n|] eqn:Hp; [|discriminate E].
    apply strip_prefix_Some in Hp as ->. exists n.
    split; [done|]. split; [by apply Hlen|]. left. split; [by left|].
    apply (formatNepaliPhone_spellings n E).
  - destruct (strip_prefix "977" phone) as [n|] eqn:Hp; [|discriminate E].
    apply strip_prefix_Some in Hp as ->. exists n.
    split; [done|]. split; [by apply Hlen|]. left.
    split; [by right; left|].
    apply (formatNepaliPhone_spellings n E).
  - destruct (strip_prefix "0" phone) as [n|] eqn:Hp; [|discriminate E].
    apply strip_prefix_Some in Hp as ->. exists n.
    split; [done|]. split; [by apply Hlen|]. left.
    split; [by right; right; left|].
    apply (formatNepaliPhone_spellings n E).
  - cbn [strip_prefix] in E. exists phone.
    split; [done|]. split; [by apply Hlen|].
    destruct (formatNepaliPhone_spellings phone E) as (_ & _ & _ & Hb).
    destruct (String.prefix "977" phone); [right|left]; [done|].
    split; [by right; right; right|done].
Qed.

Lemma formatNepaliPhone_of_accepted_phone_witness :
  matches_nepali_phone "09841234567" = true /\
  exists n,
    matches_local_number n = true /\
    String.length n = 10%nat /\
    ((("09841234567" = "+977" +:+ n \/ "09841234567" = "977" +:+ n \/
       "09841234567" = "0" +:+ n \/
       ("09841234567" = n /\ String.prefix "977" n = false)) /\
      formatNepaliPhone "09841234567" = "+977" +:+ n) \/
     ("09841234567" = n /\ String.prefix "977" n = true /\
      formatNepaliPhone "09841234567" = "+" +:+ n)).
Proof.
  split; [reflexivity|].
  exact (formatNepaliPhone_of_accepted_phone "09841234567" eq_refl).
Defined.

(** The exception occurs: a bare
    number that starts with 977 keeps its ten digits, where the same
    number behind a 0 gets the country code. *)
Example formatNepaliPhone_bare_977 :
  matches_nepali_phone "9771234567" = true /\
  formatNepaliPhone "9771234567" = "+9771234567" /\
  formatNepaliPhone "09771234567" = "+9779771234567".
Proof. repeat split; reflexivity. Qed.

(** X2: Formatting a formatted phone number changes nothing. *)
Theorem formatNepaliPhone_idempotent (phone : string) :
  formatNepaliPhone (formatNepaliPhone phone) = formatNepaliPhone phone.
Proof.
  assert (Hplus : forall d, string_forall is_digit d = true ->
            String.prefix "977" d = true ->
            formatNepaliPhone ("+" +:+ d) = "+" +:+ d).
  { intros d Hd Hp. unfold formatNepaliPhone.
    change (remove_non_digits ("+" +:+ d)) with (remove_non_digits d).
    rewrite (remove_non_digits_id d Hd), Hp. reflexivity. }
  assert (H977 : forall d, string_forall is_digit d = true ->
            formatNepaliPhone ("+977" +:+ d) = "+977" +:+ d).
  { intros d Hd. apply (Hplus ("977" +:+ d)).
    - simpl. exact Hd.
    - simpl. by destruct d. }
  pose proof (remove_non_digits_digits phone) as Hc.
  destruct (String.prefix "977" (remove_non_digits phone)) eqn:E1.
  { assert (E : formatNepaliPhone phone = "+" +:+ remove_non_digits phone)
      by (unfold formatNepaliPhone; by rewrite E1).
    rewrite E. by apply Hplus. }
  destruct (String.prefix "0" (remove_non_digits phone)) eqn:E2.
  { assert (E : formatNepaliPhone phone
                = "+977" +:+ substring_from_1 (remove_non_digits phone))
      by (unfold formatNepaliPhone; by rewrite E1, E2).
    rewrite E. apply H977.
    destruct (remove_non_digits phone) as [|c d]; [done|].
    simpl in Hc. apply andb_prop in Hc as [_ Hc]. exact Hc. }
  destruct (Nat.eqb (String.length (remove_non_digits phone)) 10) eqn:E3.
  { assert (E : formatNepaliPhone phone = "+977" +:+ remove_non_digits phone)
      by (unfold formatNepaliPhone; by rewrite E1, E2, E3).
    rewrite E. by apply H977. }
  assert (E : formatNepaliPhone phone = phone)
    by (unfold formatNepaliPhone; by rewrite E1, E2, E3).
  by rewrite !E.
Qed.

(* ================================================================== *)
(** * Further properties: the OTP ledger and its handlers              *)
(* ================================================================== *)

Lemma verifyOTP_storeOTP
    (store : OtpStore) (phone code : string) (issued now : Z) :
  verifyOTP (storeOTP store phone code issued) phone code now
  = (now <? issued + five_minutes, delete phone store).
Proof.
  assert (Hd : delete phone (storeOTP store phone code issued)
               = delete phone store) by apply delete_insert_eq.
  destruct (Z.ltb_spec now (issued + five_minutes)) as [Hlive|Hlate].
  - rewrite (verifyOTP_match _ phone code now _ (storeOTP_lookup _ _ _ _));
      [by rewrite Hd | simpl; lia | done].
  - rewrite (verifyOTP_expired _ phone code now _ (storeOTP_lookup _ _ _ _));
      [by rewrite Hd | simpl; lia].
Qed.

(** X3: A code that was just stored is accepted exactly while its five
    minutes last (not at the very millisecond they end), and whether it
    is accepted or has expired, the attempt removes the entry. *)
Theorem verifyOTP_after_storeOTP
    (store : OtpStore) (phone code : string) (issued now : Z) :
  (fst (verifyOTP (storeOTP store phone code issued) phone code now) = true
   <-> now < issued + five_minutes) /\
  snd (verifyOTP (storeOTP store phone code issued) phone code now)
  = delete phone store.
Proof.
  rewrite verifyOTP_storeOTP. cbn [fst snd]. split; [|done].
  apply Z.ltb_lt.
Qed.

(** X4: Issuing again replaces the entry: the ledger is as if only the
    second code had been issued, and the first code is refused from
    then on. *)
Theorem storeOTP_replaces_previous_code
    (store : OtpStore) (phone code1 code2 : string) (t1 t2 : Z) :
  code1 <> code2 ->
  storeOTP (storeOTP store phone code1 t1) phone code2 t2
    = storeOTP store phone code2 t2 /\
  forall now,
    fst (verifyOTP (storeOTP (storeOTP store phone code1 t1) phone code2 t2)
                   phone code1 now) = false.
Proof.
  intros Hne.
  assert (E : storeOTP (storeOTP store phone code1 t1) phone code2 t2
              = storeOTP store phone code2 t2) by apply insert_insert_eq.
  split; [exact E|]. intros now. rewrite E.
  destruct (verifyOTP_cases (storeOTP store phone code2 t2) phone code1 now)
    as [[_ R]|[(e & _ & _ & R)|[(e & _ & _ & _ & R)|(e & He & _ & Hc & _)]]];
    try (by rewrite R).
  rewrite storeOTP_lookup in He. injection He as <-. simpl in Hc. congruence.
Qed.

Lemma storeOTP_replaces_previous_code_witness :
  storeOTP (storeOTP ∅ "+9779841234567" "111111" 0)
           "+9779841234567" "222222" 1000
    = storeOTP ∅ "+9779841234567" "222222" 1000 /\
  fst (verifyOTP (storeOTP (storeOTP ∅ "+9779841234567" "111111" 0)
                           "+9779841234567" "222222" 1000)
                 "+9779841234567" "111111" 2000) = false.
Proof.
  destruct (storeOTP_replaces_previous_code
              ∅ "+9779841234567" "111111" "222222" 0 1000)
    as [H1 H2]; [discriminate|].
  split; [exact H1 | exact (H2 2000)].
Defined.

(** X5: Issuing, verifying and the expiry timer for one phone leave the
    entries of every other phone as they are. *)
Theorem ledger_operations_are_local
    (store : OtpStore) (phone other code : string) (now : Z) :
  other <> phone ->
  storeOTP store phone code now !! other = store !! other /\
  snd (verifyOTP store phone code now) !! other = store !! other /\
  storeOTP_timeout store phone now !! other = store !! other.
Proof.
  intros Hne. split; [|split].
  - unfold storeOTP. by rewrite lookup_insert_ne.
  - destruct (verifyOTP_cases store phone code now)
      as [[_ R]|[(e & _ & _ & R)|[(e & _ & _ & _ & R)|(e & _ & _ & _ & R)]]];
      rewrite R; simpl; try done; by rewrite lookup_delete_ne.
  - unfold storeOTP_timeout. destruct (store !! phone) as [e|]; [|done].
    destruct (expiresAt e <=? now); [|done]. by rewrite lookup_delete_ne.
Qed.

Lemma ledger_operations_are_local_witness :
  snd (verifyOTP ledger_demo "+9779800000000" "482913" 1000)
    !! "+9779841234567" = ledger_demo !! "+9779841234567".
Proof.
  destruct (ledger_operations_are_local
              ledger_demo "+9779800000000" "+9779841234567" "482913" 1000)
    as (_ & H2 & _); [discriminate|].
  exact H2.
Defined.

(** X6: The timer [storeOTP] sets: run when the five minutes are over it
    removes the entry it was set for; if the phone was issued a new code
    in between, whose five minutes are not over, it removes nothing. *)
Theorem storeOTP_timeout_removes_only_expired
    (store : OtpStore) (phone code code' : string)
    (issued reissued fired : Z) :
  (issued + five_minutes <= fired ->
   storeOTP_timeout (storeOTP store phone code issued) phone fired
   = delete phone store) /\
  (fired < reissued + five_minutes ->
   storeOTP_timeout
     (storeOTP (storeOTP store phone code issued) phone code' reissued)
     phone fired
   = storeOTP (storeOTP store phone code issued) phone code' reissued).
Proof.
  split; intros Ht; unfold storeOTP_timeout; rewrite storeOTP_lookup; simpl.
  - destruct (Z.leb_spec (issued + five_minutes) fired); [|lia].
    apply delete_insert_eq.
  - destruct (Z.leb_spec (reissued + five_minutes) fired); [lia|done].
Qed.

(** X7: When the SMS gateway fails, [sendOTP] answers 500 but the code it
    generated stays in the ledger and verifies. *)
Theorem sendOTP_keeps_code_when_sms_fails
    (env : Env) (store : OtpStore) (phone : string) (rand : Q)
    (gateway : option Z) (now : Z) :
  validate_phone phone = [] ->
  sendOTPviaSMS env gateway = false ->
  sendOTP env store phone rand gateway now
  = (Respond 500
       (error_body "Failed to send OTP"
          "Could not send verification code. Please try again."),
     storeOTP store (formatNepaliPhone phone) (generateOTP rand) now) /\
  fst (verifyOTP (snd (sendOTP env store phone rand gateway now))
                 (formatNepaliPhone phone) (generateOTP rand) now) = true.
Proof.
  intros Hval Hsms.
  assert (E : sendOTP env store phone rand gateway now
              = (Respond 500
                   (error_body "Failed to send OTP"
                      "Could not send verification code. Please try again."),
                 storeOTP store (formatNepaliPhone phone)
                          (generateOTP rand) now))
    by (unfold sendOTP; by rewrite Hval, Hsms).
  split; [exact E|]. rewrite E. cbn [snd].
  rewrite verifyOTP_storeOTP. cbn [fst].
  apply Z.ltb_lt. unfold five_minutes. lia.
Qed.

Lemma sendOTP_keeps_code_when_sms_fails_witness :
  fst (verifyOTP
         (snd (sendOTP
                 {| JWT_SECRET := Some "access-secret";
                    JWT_REFRESH_SECRET := None; JWT_RESET_SECRET := None;
                    NODE_ENV := Some "production";
                    SMS_GATEWAY_URL := Some "https://sms.example";
                    SMS_API_KEY := Some "key" |}
                 ∅ "9841234567" (1 # 2) (Some 503) 0))
         "+9779841234567" (generateOTP (1 # 2)) 0) = true.
Proof.
  apply (sendOTP_keeps_code_when_sms_fails
           {| JWT_SECRET := Some "access-secret";
              JWT_REFRESH_SECRET := None; JWT_RESET_SECRET := None;
              NODE_ENV := Some "production";
              SMS_GATEWAY_URL := Some "https://sms.example";
              SMS_API_KEY := Some "key" |}
           ∅ "9841234567" (1 # 2) (Some 503) 0); reflexivity.
Defined.

(** X8: A successful [sendOTP] puts the code itself in the response unless
    [NODE_ENV] is production; without a configured gateway it succeeds
    without sending anything. *)
Theorem sendOTP_discloses_code_outside_production
    (env : Env) (store : OtpStore) (phone : string) (rand : Q)
    (gateway : option Z) (now : Z) :
  validate_phone phone = [] ->
  sendOTPviaSMS env gateway = true ->
  exists body,
    fst (sendOTP env store phone rand gateway now) = Respond 200 body /\
    lookup_field "otp" body
      = (if is_production env then None else Some (JStr (generateOTP rand))) /\
    lookup_field "phone" body = Some (JStr (formatNepaliPhone phone)).
Proof.
  intros Hval Hsms. unfold sendOTP. rewrite Hval, Hsms. cbn [negb fst].
  eexists. split; [reflexivity|]. by destruct (is_production env).
Qed.

Lemma sendOTP_discloses_code_outside_production_witness :
  exists body,
    fst (sendOTP env_development ∅ "9841234567" (1 # 2) None 0)
      = Respond 200 body /\
    lookup_field "otp" body = Some (JStr (generateOTP (1 # 2))).
Proof.
  destruct (sendOTP_discloses_code_outside_production
              env_development ∅ "9841234567" (1 # 2) None 0 eq_refl eq_refl)
    as (body & H1 & H2 & _).
  exists body. split; [exact H1 | exact H2].
Defined.










(** X10: [verifyOTPAndLogin] never creates an account: for a phone no account
    has, no request is answered 200 and the database is left as it was.
    With a full name supplied and a verifying code, the INSERT is refused
    because the new row has no email, which [users] requires. *)
Theorem verifyOTPAndLogin_never_registers `{Bcrypt}
    (env : Env) (store : OtpStore) (db : Db) (b : VerifyBody)
    (placeholder salt fresh_id : string) (now : Z) :
  findByPhone db (formatNepaliPhone (verify_phone b)) = None ->
  snd (verifyOTPAndLogin env store db b placeholder salt fresh_id now) = db /\
  (forall body,
     fst (fst (verifyOTPAndLogin env store db b placeholder salt fresh_id now))
     <> Respond 200 body) /\
  (validate_verifyOTP b = [] ->
   fst (verifyOTP store (formatNepaliPhone (verify_phone b))
                  (verify_otp b) now) = true ->
   truthy_field (verify_fullName b) = true ->
   is_Some (findRole db ROLES_PSR) ->
   fst (fst (verifyOTPAndLogin env store db b placeholder salt fresh_id now))
   = NextError (QueryFailedError "null value in column")).
Proof.
  intros Hnone. unfold verifyOTPAndLogin.
  destruct (validate_verifyOTP b) as [|e errors] eqn:Hval.
  2: { split; [done|]. split; [discriminate|discriminate]. }
  destruct (verifyOTP store _ (verify_otp b) now) as [ok store'] eqn:Hv.
  destruct ok; cbn [negb fst snd].
  2: { split; [done|]. split; [discriminate|]. intros _ [=]. }
  rewrite Hnone.
  destruct (truthy_field (verify_fullName b)); cbn [negb].
  2: { split; [done|]. split; [discriminate|]. intros _ _ [=]. }
  destruct (findRole db ROLES_PSR) as [psrRole|]; cbn.
  2: { split; [done|]. split; [discriminate|]. intros _ _ _ [? [=]]. }
  split; [done|]. split; [discriminate|done].
Qed.

Lemma verifyOTPAndLogin_never_registers_witness :
  fst (fst (@verifyOTPAndLogin demo_bcrypt env_development ledger_demo db_empty
              {| verify_phone := "9841234567"; verify_otp := "482913";
                 verify_fullName := Some "Alice A" |}
              "k3j9x0q2ab" "salt" "u-new" 1000))
    = NextError (QueryFailedError "null value in column") /\
  snd (@verifyOTPAndLogin demo_bcrypt env_development ledger_demo db_empty
         {| verify_phone := "9841234567"; verify_otp := "482913";
            verify_fullName := Some "Alice A" |}
         "k3j9x0q2ab" "salt" "u-new" 1000) = db_empty.
Proof.
  destruct (@verifyOTPAndLogin_never_registers demo_bcrypt env_development
              ledger_demo db_empty
              {| verify_phone := "9841234567"; verify_otp := "482913";
                 verify_fullName := Some "Alice A" |}
              "k3j9x0q2ab" "salt" "u-new" 1000 eq_refl) as (H1 & _ & H3).
  split; [|exact H1].
  apply H3; try reflexivity. by eexists.
Defined.

(* ================================================================== *)
(** * Further properties: the auth controller                          *)
(* ================================================================== *)

Lemma findRole_id db rid r : findRole db rid = Some r -> role_id r = rid.
Proof.
  unfold findRole. intros E. apply find_some in E as [_ E].
  by apply Z.eqb_eq in E.
Qed.

Lemma findByEmail_In db e u : findByEmail db e = Some u -> In u (users db).
Proof. unfold findByEmail. intros E. by apply find_some in E as [E _]. Qed.

Lemma findByEmail_None_notin db e :
  findByEmail db e = None -> ~ In e (map email (users db)).
Proof.
  unfold findByEmail. intros E Hin. apply in_map_iff in Hin as (u & <- & Hu).
  pose proof (find_none _ _ E u Hu) as Hf. simpl in Hf.
  by rewrite String.eqb_refl in Hf.
Qed.

(** Looking up the email of a row appended to a table that did not have
    that email finds the row. *)
Lemma find_appended (l : list User) u e :
  List.find (fun v => String.eqb (email v) e) l = None ->
  email u = e ->
  List.find (fun v => String.eqb (email v) e) (l ++ [u]) = Some u.
Proof.
  intros Hnone He. induction l as [|v l IH]; simpl in *.
  - by rewrite He, String.eqb_refl.
  - destruct (String.eqb (email v) e); [discriminate|]. by apply IH.
Qed.

(** With ids that are unique, a row is what its id finds. *)
Lemma findById_of_member db u :
  NoDup (map id (users db)) -> In u (users db) -> findById db (id u) = Some u.
Proof.
  unfold findById. induction (users db) as [|v l IH]; simpl; [done|].
  intros Hnd Hin. apply NoDup_cons in Hnd as [Hv Hnd].
  destruct (String.eqb_spec (id v) (id u)) as [E|E].
  - destruct Hin as [->|Hin]; [done|].
    exfalso. apply Hv. rewrite E. apply list_elem_of_In. by apply in_map.
  - destruct Hin as [->|Hin]; [done|]. by apply IH.
Qed.

Lemma jwt_sign_Some_truthy payload secret expiresIn now t :
  jwt_sign payload secret expiresIn now = Some t ->
  truthy_field secret = true.
Proof.
  unfold jwt_sign, truthy_field. destruct secret as [k|]; [|discriminate].
  simpl. by destruct (String.eqb k "").
Qed.

(** The two signatures behind a successful [generateTokens]. *)
Lemma generateTokens_signed env uid role now tokens :
  generateTokens env uid role now = inr tokens ->
  exists r, role = Some r /\
    jwt_sign {| claim_id := uid; claim_role := JString (roleName r) |}
             (JWT_SECRET env) one_hour now = Some (accessToken tokens) /\
    jwt_sign {| claim_id := uid; claim_role := JUndefined |}
             (js_or (JWT_REFRESH_SECRET env) (JWT_SECRET env))
             seven_days now = Some (refreshToken tokens).
Proof.
  unfold generateTokens. destruct role as [r|]; [|discriminate].
  change (Role_get r "roleName") with (JString (roleName r)).
  destruct (jwt_sign _ (JWT_SECRET env) _ _) as [access|] eqn:Ea;
    [|discriminate].
  destruct (jwt_sign _ (js_or _ _) _ _) as [refresh|] eqn:Er; [|discriminate].
  intros [= <-]. exists r. cbn [accessToken refreshToken].
  split; [done|]. split; [exact Ea | done].
Qed.

(** What stands behind a registration answered 201. *)
Lemma register_201_inv `{Bcrypt} `{ValidatorJs}
    env db b salt fresh_id now body db' :
  register env db b salt fresh_id now = (Respond 201 body, db') ->
  validate_register b = [] /\
  findByEmail db (reg_email b) = None /\
  exists u r tokens,
    users db' = (users db ++ [u])%list /\
    roles db' = roles db /\
    id u = fresh_id /\ email u = reg_email b /\
    fullName u = reg_fullName b /\ phone u = reg_phone b /\
    roleId u = role_id r /\
    findRole db (role_id r) = Some r /\
    password_hash u
    = (if String.prefix "$2b$" (reg_password b) then reg_password b
       else bcrypt_hash (reg_password b) 10 salt) /\
    generateTokens env fresh_id (Some r) now = inr tokens /\
    lookup_field "accessToken" body = Some (JTok (accessToken tokens)) /\
    lookup_field "refreshToken" body = Some (JTok (refreshToken tokens)).
Proof.
  unfold register.
  destruct (validate_register b) as [|e errors] eqn:Hval; [|discriminate].
  pose proof (password_policy_nonempty _ (validate_register_policy b Hval))
    as Hne.
  destruct (findByEmail db (reg_email b)) eqn:Hfree; [discriminate|].
  match goal with
  | |- context [match ?x with inl _ => _ | inr _ => _ end] =>
      destruct x as [rejected|role] eqn:Hrole
  end.
  { intros [= -> _]. revert Hrole.
    destruct (reg_roleId b) as [rid|]; [|discriminate].
    destruct (truthy (JNumber rid)); [|discriminate].
    destruct (findRole db rid); discriminate. }
  assert (Hfound : forall r, role = Some r -> findRole db (role_id r) = Some r).
  { intros r ->. revert Hrole.
    destruct (reg_roleId b) as [rid|].
    - destruct (truthy (JNumber rid)).
      + destruct (findRole db rid) as [r'|] eqn:Hr; [|discriminate].
        intros [= ->]. by rewrite (findRole_id _ _ _ Hr).
      + intros [= Hr]. by rewrite (findRole_id _ _ _ Hr).
    - intros [= Hr]. by rewrite (findRole_id _ _ _ Hr). }
  unfold save_new. cbn [draft_email draft_password_hash draft_fullName
                        draft_role draft_phone].
  rewrite hashPassword_spec, Hne. cbn [negb andb].
  destruct role as [r|]; [|discriminate].
  rewrite Hfree.
  destruct (generateTokens env fresh_id (Some r) now) as [x|tokens] eqn:Htok;
    cbn [id]; rewrite Htok; [discriminate|].
  intros [= <- <-]. split; [done|]. split; [done|].
  eexists _, r, tokens. cbn.
  repeat split; try done; try (by apply Hfound).
  by destruct (String.prefix "$2b$" (reg_password b)).
Qed.

(** X11: Registration keeps the emails of [users] pairwise distinct, and
    answers 409 without touching the database when the email is taken. *)
Theorem register_keeps_emails_unique `{Bcrypt} `{ValidatorJs}
    (env : Env) (db : Db) (b : RegisterBody) (salt fresh_id : string)
    (now : Z) :
  NoDup (map email (users db)) ->
  NoDup (map email (users (snd (register env db b salt fresh_id now)))) /\
  (validate_register b = [] ->
   findByEmail db (reg_email b) <> None ->
   register env db b salt fresh_id now
   = (Respond 409
        (error_body "Conflict" "User with this email already exists"), db)).
Proof.
  intros Hnd. split.
  - destruct (register env db b salt fresh_id now) as [answer db'] eqn:Hrun.
    cbn [snd]. revert Hrun. unfold register.
    destruct (validate_register b) as [|e errors]; [|by intros [= _ <-]].
    destruct (findByEmail db (reg_email b)) eqn:Hfree; [by intros [= _ <-]|].
    match goal with
    | |- context [match ?x with inl _ => _ | inr _ => _ end] =>
        destruct x as [rejected|role]; [by intros [= _ <-]|]
    end.
    destruct (save_new db _ salt fresh_id) as [x|[u db1]] eqn:Hsave;
      [by intros [= _ <-]|].
    apply save_new_inr in Hsave as (p & _ & He & Hu & _).
    cbn [draft_email] in He. injection He as He.
    intros Hrun.
    assert (db' = db1) as ->
      by (destruct (generateTokens env (id u) role now); by injection Hrun).
    rewrite Hu, map_app. cbn [map].
    apply NoDup_app. split; [done|]. split; [|apply NoDup_singleton].
    intros e Hin Hin'. apply list_elem_of_In in Hin.
    apply list_elem_of_singleton in Hin'. subst e.
    rewrite <- He in Hin. by apply (findByEmail_None_notin _ _ Hfree).
  - intros Hval Htaken. unfold register. rewrite Hval.
    by destruct (findByEmail db (reg_email b)).
Qed.

Lemma register_keeps_emails_unique_witness :
  NoDup (map email (users db_alice)) /\
  NoDup (map email
           (users (snd (@register demo_bcrypt demo_validator env_development
                          db_alice
                          {| reg_email := "bob@x.com";
                             reg_password := "Passw0rd!";
                             reg_fullName := "Bob B"; reg_phone := None;
                             reg_roleId := None |} "salt" "u-bob" 0)))) /\
  @register demo_bcrypt demo_validator env_development db_alice
    {| reg_email := "alice@x.com"; reg_password := "Passw0rd!";
       reg_fullName := "Alice Again"; reg_phone := None;
       reg_roleId := None |} "salt" "u-2" 0
  = (Respond 409
       (error_body "Conflict" "User with this email already exists"),
     db_alice).
Proof.
  assert (Hnd : NoDup (map email (users db_alice)))
    by (apply NoDup_singleton).
  split; [exact Hnd|]. split.
  - apply (@register_keeps_emails_unique demo_bcrypt demo_validator
             env_development db_alice _ "salt" "u-bob" 0 Hnd).
  - apply (@register_keeps_emails_unique demo_bcrypt demo_validator
             env_development db_alice _ "salt" "u-2" 0 Hnd);
      [reflexivity | discriminate].
Defined.

(** X12: After a registration answered 201, logging in with the same email
    and password is answered 200, provided bcrypt recognises the
    password in the hash it made of it and the password does not begin
    with [$2b$] (in which case no hash was made). *)
Theorem register_then_login `{Bcrypt} `{ValidatorJs}
    (env : Env) (db db' : Db) (b : RegisterBody) (salt fresh_id : string)
    (now now' : Z) (body : Body) :
  register env db b salt fresh_id now = (Respond 201 body, db') ->
  String.prefix "$2b$" (reg_password b) = false ->
  bcrypt_compare (reg_password b) (bcrypt_hash (reg_password b) 10 salt)
    = true ->
  exists body',
    login env db'
      {| login_email := reg_email b; login_password := reg_password b |} now'
    = Respond 200 body'.
Proof.
  intros Hrun Hplain Hcmp.
  apply register_201_inv in Hrun
    as (Hval & Hfree & u & r & tokens & Hu & Hroles & Hid & He & _ & _ & Hrid
        & Hr & Hh & Htok & _).
  rewrite Hplain in Hh.
  assert (Hlogin : validate_login
            {| login_email := reg_email b; login_password := reg_password b |}
            = []).
  { unfold validate_login. cbn [login_email login_password].
    pose proof (password_policy_nonempty _ (validate_register_policy b Hval))
      as Hne.
    unfold validate_register in Hval. apply app_nil_inv in Hval as [Hmail _].
    apply check_nil in Hmail. unfold notEmpty. by rewrite Hmail, Hne. }
  assert (Hfind : findByEmail db' (reg_email b) = Some u).
  { unfold findByEmail. rewrite Hu. by apply find_appended. }
  assert (Hrole : roleOf db' u = Some r).
  { unfold roleOf, findRole. by rewrite Hroles, Hrid. }
  apply generateTokens_signed in Htok as (r' & _ & Hsign & _).
  destruct (generateTokens_ok env (id u) r now'
              (jwt_sign_Some_truthy _ _ _ _ _ Hsign)) as (tokens' & Htok').
  unfold login. rewrite Hlogin. cbn [login_email login_password].
  rewrite Hfind, Hh, Hcmp, Hrole, Htok'. cbn [negb]. eauto.
Qed.

Lemma register_then_login_witness :
  exists body',
    @login demo_bcrypt demo_validator env_development
      (snd (@register demo_bcrypt demo_validator env_development db_empty
              {| reg_email := "bob@x.com"; reg_password := "Passw0rd!";
                 reg_fullName := "Bob B"; reg_phone := None;
                 reg_roleId := None |} "salt" "u-bob" 0))
      {| login_email := "bob@x.com"; login_password := "Passw0rd!" |} 5000
    = Respond 200 body'.
Proof.
  eapply (@register_then_login demo_bcrypt demo_validator env_development
            db_empty _
            {| reg_email := "bob@x.com"; reg_password := "Passw0rd!";
               reg_fullName := "Bob B"; reg_phone := None;
               reg_roleId := None |} "salt" "u-bob" 0 5000);
    reflexivity.
Defined.

(** What stands behind a login answered 200. *)
Lemma login_200_inv `{Bcrypt} `{ValidatorJs} env db b now body :
  login env db b now = Respond 200 body ->
  exists user role tokens,
    findByEmail db (login_email b) = Some user /\
    bcrypt_compare (login_password b) (password_hash user) = true /\
    roleOf db user = Some role /\
    generateTokens env (id user) (Some role) now = inr tokens /\
    lookup_field "accessToken" body = Some (JTok (accessToken tokens)) /\
    lookup_field "refreshToken" body = Some (JTok (refreshToken tokens)).
Proof.
  unfold login.
  destruct (validate_login b); [|discriminate].
  destruct (findByEmail db (login_email b)) as [user|]; [|discriminate].
  destruct (bcrypt_compare _ _) eqn:Hcmp; cbn [negb]; [|discriminate].
  destruct (generateTokens env (id user) (roleOf db user) now)
    as [e|tokens] eqn:Htok; [discriminate|].
  intros [= <-].
  destruct (generateTokens_inr _ _ _ _ _ Htok) as (role & Hrole & _).
  exists user, role, tokens. rewrite Hrole in Htok. done.
Qed.

(** X13: The tokens of a login are accepted where they are meant to be: the
    access token by [authMiddleware] (behind any scheme word) until its
    hour is over, the refresh token by the refresh handler until its
    seven days are over, as long as the database is the same. Ids are
    taken to be unique, as a primary key is. *)
Theorem login_tokens_are_accepted `{Bcrypt} `{ValidatorJs}
    (env : Env) (db : Db) (b : LoginBody) (now : Z) (body : Body) :
  NoDup (map id (users db)) ->
  login env db b now = Respond 200 body ->
  exists user tokens,
    findByEmail db (login_email b) = Some user /\
    lookup_field "accessToken" body = Some (JTok (accessToken tokens)) /\
    lookup_field "refreshToken" body = Some (JTok (refreshToken tokens)) /\
    (forall scheme now',
       now' / 1000 < now / 1000 + one_hour ->
       exists u,
         authMiddleware env db (Some [Opaque scheme; accessToken tokens]) now'
         = inr u /\ ru_id u = id user) /\
    (forall now',
       now' / 1000 < now / 1000 + seven_days ->
       exists body',
         refreshToken_handler env db (Some (refreshToken tokens)) now'
         = Respond 200 body').
Proof.
  intros Hnd Hrun.
  apply login_200_inv in Hrun
    as (user & role & tokens & Hfind & _ & Hrole & Htok & Ha & Hr).
  pose proof (findById_of_member db user Hnd (findByEmail_In _ _ _ Hfind))
    as Hid.
  destruct (generateTokens_signed _ _ _ _ _ Htok)
    as (r & _ & Hsa & Hsr).
  exists user, tokens. repeat split; try done.
  - intros scheme now' Hlive.
    apply (authMiddleware_accepts env db _ (accessToken tokens) now'
             {| claim_id := id user; claim_role := JString (roleName r) |}
             user role); try done.
    by apply (jwt_verify_sign _ _ _ _ _ _ Hsa).
  - intros now' Hlive.
    pose proof (jwt_verify_sign _ _ _ _ _ _ Hsr Hlive) as Hv.
    pose proof (jwt_verify_truthy _ _ _ _ Hv) as Ht.
    unfold refreshToken_handler. rewrite Ht, Hv. cbn [negb claim_id].
    rewrite Hid, Hrole.
    destruct (generateTokens_ok env (id user) role now'
                (jwt_sign_Some_truthy _ _ _ _ _ Hsa)) as (tokens' & ->).
    eauto.
Qed.

Lemma login_tokens_are_accepted_witness :
  exists tokens u,
    authMiddleware env_development db_alice
      (Some [Opaque "Bearer"; accessToken tokens]) 3599000 = inr u /\
    ru_id u = "u-alice".
Proof.
  destruct (@login_tokens_are_accepted demo_bcrypt demo_validator
              env_development db_alice
              {| login_email := "alice@x.com"; login_password := "Passw0rd!" |}
              0 _ ltac:(apply NoDup_singleton) eq_refl)
    as (user & tokens & Hfind & _ & _ & Hacc & _).
  injection Hfind as <-.
  destruct (Hacc "Bearer" 3599000 eq_refl) as (u & Hu & Hid).
  exists tokens, u. split; [exact Hu | exact Hid].
Defined.

(** X14: No handler checks what a token was issued for, only the key it was
    signed with. Without a dedicated [JWT_REFRESH_SECRET], a refresh
    token is therefore accepted by [authMiddleware] as an access token,
    for its whole seven days. *)
Theorem refresh_token_passes_authMiddleware_without_refresh_secret
    (env : Env) (db : Db) (uid scheme : string) (role : option Role)
    (issued now : Z) (tokens : Tokens) (user : User) (stored : Role) :
  truthy_field (JWT_REFRESH_SECRET env) = false ->
  generateTokens env uid role issued = inr tokens ->
  findById db uid = Some user ->
  roleOf db user = Some stored ->
  now / 1000 < issued / 1000 + seven_days ->
  exists u,
    authMiddleware env db (Some [Opaque scheme; refreshToken tokens]) now
    = inr u /\ ru_id u = uid.
Proof.
  intros Hno Htok Hu Hrole Hlive.
  destruct (generateTokens_signed _ _ _ _ _ Htok) as (r & _ & _ & Hsr).
  unfold js_or in Hsr. rewrite Hno in Hsr.
  pose proof (jwt_verify_sign _ _ _ _ _ _ Hsr Hlive) as Hv.
  destruct (authMiddleware_accepts env db [Opaque scheme; refreshToken tokens]
              (refreshToken tokens) now
              {| claim_id := uid; claim_role := JUndefined |} user stored)
    as (u & Hrun & Hid); try done.
  exists u. split; [done|]. rewrite Hid. by apply findById_id with db.
Qed.

Lemma refresh_token_passes_authMiddleware_witness :
  exists tokens u,
    generateTokens env_single_secret "u-alice" (roleOf db_alice alice) 0
      = inr tokens /\
    authMiddleware env_single_secret db_alice
      (Some [Opaque "Bearer"; refreshToken tokens]) 86400000 = inr u /\
    ru_id u = "u-alice".
Proof.
  destruct (generateTokens env_single_secret "u-alice"
              (roleOf db_alice alice) 0) as [e|tokens] eqn:Htok;
    [discriminate Htok|].
  destruct (refresh_token_passes_authMiddleware_without_refresh_secret
              env_single_secret db_alice "u-alice" "Bearer"
              (roleOf db_alice alice) 0 86400000 tokens alice
              {| role_id := 2; roleName := "psr" |}
              eq_refl Htok eq_refl eq_refl eq_refl) as (u & Hu & Hid).
  exists tokens, u. split; [reflexivity|]. split; [exact Hu | exact Hid].
Defined.

(** X15: Likewise, without a dedicated [JWT_RESET_SECRET] an access token is
    accepted by [resetPassword] as a reset token: whoever holds a valid
    access token can set a new password without the current one. *)
Theorem access_token_resets_password_without_reset_secret `{Bcrypt}
    (env : Env) (db : Db) (uid : string) (role : option Role)
    (issued now : Z) (tokens : Tokens) (user : User) (p salt : string) :
  truthy_field (JWT_RESET_SECRET env) = false ->
  generateTokens env uid role issued = inr tokens ->
  findById db uid = Some user ->
  p <> "" ->
  now / 1000 < issued / 1000 + one_hour ->
  resetPassword env db (Some (accessToken tokens)) (Some p) salt now
  = (Respond 200 [("message", JStr "Password reset successfully")],
     save_password db uid p salt).
Proof.
  intros Hno Htok Hu Hp Hlive.
  destruct (generateTokens_signed _ _ _ _ _ Htok) as (r & _ & Hsa & _).
  pose proof (jwt_verify_sign _ _ _ _ _ _ Hsa Hlive) as Hv.
  pose proof (jwt_verify_truthy _ _ _ _ Hv) as Ht.
  unfold resetPassword. rewrite Ht. simpl truthy.
  destruct (String.eqb_spec p ""); [done|]. cbn [negb orb].
  unfold js_or. rewrite Hno, Hv. cbn [claim_id]. rewrite Hu.
  by rewrite (findById_id _ _ _ Hu).
Qed.

Lemma access_token_resets_password_witness :
  exists tokens,
    generateTokens env_single_secret "u-alice" (roleOf db_alice alice) 0
      = inr tokens /\
    @resetPassword demo_bcrypt env_single_secret db_alice
      (Some (accessToken tokens)) (Some "x") "s2" 60000
    = (Respond 200 [("message", JStr "Password reset successfully")],
       @save_password demo_bcrypt db_alice "u-alice" "x" "s2").
Proof.
  destruct (generateTokens env_single_secret "u-alice"
              (roleOf db_alice alice) 0) as [e|tokens] eqn:Htok;
    [discriminate Htok|].
  exists tokens. split; [reflexivity|].
  apply (@access_token_resets_password_without_reset_secret demo_bcrypt
           env_single_secret db_alice "u-alice" (roleOf db_alice alice)
           0 60000 tokens alice "x" "s2" eq_refl Htok eq_refl);
    [discriminate | reflexivity].
Defined.

(** X16: With a refresh secret of its own, different from [JWT_SECRET], the
    two kinds of token are told apart: [authMiddleware] answers 401 to a
    refresh token and the refresh handler answers 401 to an access
    token. *)
Theorem distinct_refresh_secret_separates_tokens
    (env : Env) (db : Db) (uid scheme : string) (role : option Role)
    (issued now : Z) (tokens : Tokens) :
  truthy_field (JWT_REFRESH_SECRET env) = true ->
  JWT_REFRESH_SECRET env <> JWT_SECRET env ->
  generateTokens env uid role issued = inr tokens ->
  authMiddleware env db (Some [Opaque scheme; refreshToken tokens]) now
    = inl (unauthorized "Invalid authentication token.") /\
  refreshToken_handler env db (Some (accessToken tokens)) now
    = Respond 401
        (error_body "Unauthorized" "Invalid or expired refresh token").
Proof.
  intros Hset Hdiff Htok.
  destruct (generateTokens_signed _ _ _ _ _ Htok) as (r & _ & Hsa & Hsr).
  unfold js_or in Hsr. rewrite Hset in Hsr.
  apply truthy_field_Some in Hset as (kr & Hkr & Hkr').
  destruct (jwt_sign_truthy
              {| claim_id := uid; claim_role := JString (roleName r) |}
              _ one_hour issued (jwt_sign_Some_truthy _ _ _ _ _ Hsa))
    as (ka & Hka & Hsa').
  rewrite Hsa' in Hsa. injection Hsa as Ha.
  rewrite Hkr in Hsr. unfold jwt_sign in Hsr. rewrite Hkr' in Hsr.
  injection Hsr as Hr.
  assert (Hne : ka <> kr) by (intros ->; apply Hdiff; by rewrite Hkr, Hka).
  split.
  - unfold authMiddleware. cbn [header_is_empty nth_error].
    rewrite <- Hr. cbn [truthy_token negb].
    destruct (jwt_verify_other_secret
                {| claim_id := uid; claim_role := JUndefined |}
                kr (issued / 1000) (issued / 1000 + seven_days) ka now Hne)
      as (msg & Hv).
    rewrite Hka, Hv. reflexivity.
  - unfold refreshToken_handler. rewrite <- Ha. cbn [truthy_token negb].
    unfold js_or, truthy_field. rewrite Hkr. simpl truthy. rewrite Hkr'.
    cbn [negb].
    destruct (jwt_verify_other_secret
                {| claim_id := uid; claim_role := JString (roleName r) |}
                ka (issued / 1000) (issued / 1000 + one_hour) kr now
                (not_eq_sym Hne)) as (msg & Hv).
    by rewrite Hv.
Qed.

Lemma distinct_refresh_secret_separates_tokens_witness :
  exists tokens,
    generateTokens env_development "u-alice" (roleOf db_alice alice) 0
      = inr tokens /\
    authMiddleware env_development db_alice
      (Some [Opaque "Bearer"; refreshToken tokens]) 1000
    = inl (unauthorized "Invalid authentication token.").
Proof.
  destruct (generateTokens env_development "u-alice"
              (roleOf db_alice alice) 0) as [e|tokens] eqn:Htok;
    [discriminate Htok|].
  exists tokens. split; [reflexivity|].
  apply (distinct_refresh_secret_separates_tokens
           env_development db_alice "u-alice" "Bearer"
           (roleOf db_alice alice) 0 1000 tokens eq_refl);
    [discriminate | exact Htok].
Defined.

(** [save_password] rewrites one column of the rows with the given id. *)
Lemma save_password_frame `{Bcrypt} db uid p salt :
  roles (save_password db uid p salt) = roles db /\
  map id (users (save_password db uid p salt)) = map id (users db) /\
  map email (users (save_password db uid p salt)) = map email (users db) /\
  forall i, i <> uid ->
    findById (save_password db uid p salt) i = findById db i.
Proof.
  unfold save_password. rewrite hashPassword_spec.
  remember (if negb (String.eqb p "") && negb (String.prefix "$2b$" p)
            then bcrypt_hash p 10 salt else p) as h eqn:Hh. clear Hh.
  cbn [roles users]. split; [done|].
  repeat split.
  - induction (users db) as [|u l IH]; simpl; [done|].
    rewrite IH. by destruct (String.eqb (id u) uid).
  - induction (users db) as [|u l IH]; simpl; [done|].
    rewrite IH. by destruct (String.eqb (id u) uid).
  - intros i Hi. unfold findById. cbn [users].
    induction (users db) as [|u l IH]; simpl; [done|].
    destruct (String.eqb_spec (id u) uid) as [E|E]; simpl.
    + rewrite E. destruct (String.eqb_spec uid i); [congruence|]. exact IH.
    + destruct (String.eqb (id u) i); [done|]. exact IH.
Qed.

(** X17: A password change touches nothing but the password of the user it
    is made for: roles, ids and emails stay, every other user is found
    as before, and unless the answer is 200 the database is unchanged. *)
Theorem changePassword_touches_one_row `{Bcrypt}
    (db : Db) (uid : string) (b : ChangePasswordBody) (salt : string) :
  roles (snd (changePassword db uid b salt)) = roles db /\
  map id (users (snd (changePassword db uid b salt))) = map id (users db) /\
  map email (users (snd (changePassword db uid b salt)))
    = map email (users db) /\
  (forall i, i <> uid ->
     findById (snd (changePassword db uid b salt)) i = findById db i) /\
  ((forall body, fst (changePassword db uid b salt) <> Respond 200 body) ->
   snd (changePassword db uid b salt) = db).
Proof.
  unfold changePassword.
  destruct (validate_changePassword b); [|by repeat split].
  destruct (findById db uid) as [user|] eqn:Hu; [|by repeat split].
  rewrite (findById_id _ _ _ Hu).
  destruct (bcrypt_compare _ _); cbn [negb fst snd]; [|by repeat split].
  destruct (save_password_frame db uid (newPassword b) salt)
    as (H1 & H2 & H3 & H4).
  repeat split; try done. intros Hnot. by destruct (Hnot _ eq_refl).
Qed.

(** X18: [resetPassword] never looks at the validators of its route: with a
    verifying token for an existing user it accepts any non-empty new
    password, also one the password policy of the route refuses. *)
Theorem resetPassword_ignores_password_policy `{Bcrypt}
    (env : Env) (db : Db) (t : Token) (decoded : Claims) (user : User)
    (p salt : string) (now : Z) :
  jwt_verify t (js_or (JWT_RESET_SECRET env) (JWT_SECRET env)) now
    = inr decoded ->
  findById db (claim_id decoded) = Some user ->
  p <> "" ->
  resetPassword env db (Some t) (Some p) salt now
  = (Respond 200 [("message", JStr "Password reset successfully")],
     save_password db (id user) p salt).
Proof.
  intros Hv Hu Hp. unfold resetPassword.
  rewrite (jwt_verify_truthy _ _ _ _ Hv). simpl truthy.
  destruct (String.eqb_spec p ""); [done|]. cbn [negb orb].
  by rewrite Hv, Hu.
Qed.

Lemma resetPassword_ignores_password_policy_witness :
  password_policy "a" = false /\
  @resetPassword demo_bcrypt env_development db_alice
    (Some (Signed {| claim_id := "u-alice"; claim_role := JUndefined |}
                  "access-secret" 0 3600)) (Some "a") "s3" 1000
  = (Respond 200 [("message", JStr "Password reset successfully")],
     @save_password demo_bcrypt db_alice "u-alice" "a" "s3").
Proof.
  split; [reflexivity|].
  apply (@resetPassword_ignores_password_policy demo_bcrypt env_development
           db_alice _ {| claim_id := "u-alice"; claim_role := JUndefined |}
           alice "a" "s3" 1000); try reflexivity. discriminate.
Defined.

(* ================================================================== *)
(** * Further properties: the middleware and the entity methods        *)
(* ================================================================== *)

(** X19: Every response [authMiddleware] sends itself is a 401 with the
    error Unauthorized; the only thing it passes to the error handler
    is the failure to read the role of a user whose role row is gone. *)
Theorem authMiddleware_rejects_with_401
    (env : Env) (db : Db) (authorization : option (list Token)) (now : Z)
    (answered : Outcome) :
  authMiddleware env db authorization now = inl answered ->
  (exists message, answered = unauthorized message) \/
  answered = NextError (TypeError "Cannot read properties of null").
Proof.
  unfold authMiddleware.
  repeat (case_match; try discriminate); intros [= <-]; eauto.
  exfalso.
  match goal with
  | H : jwt_verify _ _ _ = inl ?e |- _ =>
      revert H; unfold jwt_verify;
      repeat (case_match; try discriminate); intros [= <-]
  end; simpl in *; discriminate.
Qed.

Lemma authMiddleware_rejects_with_401_witness :
  exists message,
    authMiddleware env_development db_alice
      (Some [Opaque "Bearer"; Opaque "garbled"]) 0 = inl (unauthorized message).
Proof.
  destruct (authMiddleware_rejects_with_401 env_development db_alice
              (Some [Opaque "Bearer"; Opaque "garbled"]) 0 _ eq_refl)
    as [(message & E)|E]; [|discriminate E].
  exists message. rewrite <- E. reflexivity.
Defined.

(** X20: [authMiddleware] takes the second word of the header for the token
    and never looks at the first: any scheme word does. *)
Theorem authMiddleware_ignores_scheme
    (env : Env) (db : Db) (scheme scheme' token : Token)
    (rest : list Token) (now : Z) :
  authMiddleware env db (Some (scheme :: token :: rest)) now
  = authMiddleware env db (Some (scheme' :: token :: rest)) now.
Proof.
  unfold authMiddleware.
  assert (E : forall w, header_is_empty (w :: token :: rest) = false)
    by (intros [w|? ? ? ?]; reflexivity).
  by rewrite !E.
Qed.

(** X21: An access token is refused from the second its hour is over, with
    the message that says so. *)
Theorem authMiddleware_rejects_expired_token
    (env : Env) (db : Db) (payload : Claims) (scheme : string)
    (issued now : Z) (t : Token) :
  jwt_sign payload (JWT_SECRET env) one_hour issued = Some t ->
  issued / 1000 + one_hour <= now / 1000 ->
  authMiddleware env db (Some [Opaque scheme; t]) now
  = inl (unauthorized "Authentication token has expired. Please login again.").
Proof.
  intros Hs Hlate. unfold jwt_sign in Hs.
  destruct (JWT_SECRET env) as [k|] eqn:Hk; [|discriminate].
  destruct (String.eqb k "") eqn:Hne; [discriminate|].
  injection Hs as <-.
  unfold authMiddleware. cbn [header_is_empty nth_error truthy_token negb].
  rewrite Hk. cbn [jwt_verify]. rewrite Hne, String.eqb_refl. cbn [negb].
  destruct (Z.leb_spec (issued / 1000 + one_hour) (now / 1000)); [|lia].
  reflexivity.
Qed.

Lemma authMiddleware_rejects_expired_token_witness :
  authMiddleware env_development db_alice
    (Some [Opaque "Bearer";
           Signed {| claim_id := "u-alice"; claim_role := JString "psr" |}
                  "access-secret" 0 3600]) 3600000
  = inl (unauthorized "Authentication token has expired. Please login again.").
Proof.
  apply (authMiddleware_rejects_expired_token env_development db_alice
           {| claim_id := "u-alice"; claim_role := JString "psr" |}
           "Bearer" 0 3600000); [reflexivity | vm_compute; discriminate].
Defined.

(** X22: The owner guard on its own lets an admin through whoever owns the
    resource. Behind [authMiddleware] it never sees a role, so there it
    lets a request through exactly when the authenticated user is the
    owner, and answers 403 otherwise, to an admin too. *)
Theorem ownerOrAdmin_behind_authMiddleware
    (env : Env) (db : Db) (authorization : option (list Token)) (now : Z)
    (u : ReqUser) (owner : JsVal) :
  authMiddleware env db authorization now = inr u ->
  owner_gated_route (inr owner) env db authorization now
  = (if strict_eqb (JString (ru_id u)) owner then inr u else inl forbidden) /\
  (forall admin,
     ru_role admin = JString "admin" ->
     ownerOrAdmin (inr owner) (Some admin) = None).
Proof.
  intros Hauth. split.
  - unfold owner_gated_route. rewrite Hauth.
    apply authMiddleware_attaches in Hauth as (Hrole & _).
    unfold ownerOrAdmin. rewrite Hrole.
    change (strict_eqb JUndefined (JString "admin")) with false. cbv iota.
    by destruct (strict_eqb (JString (ru_id u)) owner).
  - intros admin Hadmin. unfold ownerOrAdmin. by rewrite Hadmin.
Qed.

Lemma ownerOrAdmin_behind_authMiddleware_witness :
  owner_gated_route (inr (JString "u-bina")) env_development db_alice_admin
    (Some [Opaque "Bearer";
           Signed {| claim_id := "u-alice"; claim_role := JString "admin" |}
                  "access-secret" 0 3600]) 1000
  = inl forbidden.
Proof.
  destruct (ownerOrAdmin_behind_authMiddleware env_development db_alice_admin
              (Some [Opaque "Bearer";
                     Signed {| claim_id := "u-alice";
                               claim_role := JString "admin" |}
                            "access-secret" 0 3600]) 1000
              _ (JString "u-bina") eq_refl) as [Hroute _].
  rewrite Hroute. reflexivity.
Defined.

(** X23: [User.isAdmin()] and [User.isPsr()] are false for every user, with
    any role or none: they read [role_name], which a role does not have.
    [Role.isAdmin()] and [Role.isPsr()] do tell the role by its name. *)
Theorem User_isAdmin_is_always_false (role : option Role) (r : Role) :
  User_isAdmin role = false /\
  User_isPsr role = false /\
  (Role_isAdmin r = true <-> roleName r = "admin") /\
  (Role_isPsr r = true <-> roleName r = "psr").
Proof.
  split; [by destruct role|]. split; [by destruct role|].
  unfold Role_isAdmin, Role_isPsr.
  change (Role_get r "roleName") with (JString (roleName r)).
  cbn [strict_eqb]. split; apply String.eqb_eq.
Qed.

(** X24: [rbacMiddleware(allowedRoles)] lets a request through exactly when
    [req.user.role] is a non-empty string of the list; in particular
    with the default empty list it lets nobody through. *)
Theorem rbacMiddleware_passes_iff_role_listed
    (allowedRoles : list string) (user : option ReqUser) :
  (rbacMiddleware allowedRoles user = None <->
   exists u r, user = Some u /\ ru_role u = JString r /\ r <> "" /\
               In r allowedRoles) /\
  rbacMiddleware [] user <> None.
Proof.
  assert (Hiff : forall allowed,
            rbacMiddleware allowed user = None <->
            exists u r, user = Some u /\ ru_role u = JString r /\ r <> "" /\
                        In r allowed).
  { intros allowed. split.
    - unfold rbacMiddleware. destruct user as [u|]; [|discriminate].
      destruct (ru_role u) as [|r|n] eqn:Hr; simpl truthy.
      + discriminate.
      + destruct (String.eqb_spec r ""); cbn [negb]; [discriminate|].
        destruct (includes allowed (JString r)) eqn:Hi; [|discriminate].
        intros _. exists u, r. repeat split; try done.
        by apply includes_In.
      + destruct (negb (negb (n =? 0))); [discriminate|].
        assert (includes allowed (JNumber n) = false) as ->; [|discriminate].
        unfold includes. induction allowed; simpl; [done|]. done.
    - intros (u & r & -> & Hr & Hne & Hin).
      by apply rbacMiddleware_allowed with r. }
  split; [apply Hiff|].
  intros E. apply Hiff in E as (u & r & _ & _ & _ & []).
Qed.

(* ================================================================== *)
(** * Further properties: link-phone                                   *)
(* ================================================================== *)

(** X28: [POST /link-phone] never links a phone: the database is left as it
    was and no request is answered 200. A request whose validators find
    nothing ends in one of two ways: 404 when no account is found, and
    otherwise the [ReferenceError] of the missing [bcrypt] import,
    passed to [next], whatever password was sent. A body without
    [email] or [password] passes the validators. *)
Theorem linkPhoneToAccount_never_links `{ValidatorJs}
    (db : Db) (b : LinkBody) (where_undefined : option User) :
  snd (linkPhoneToAccount db b where_undefined) = db /\
  (forall body,
     fst (linkPhoneToAccount db b where_undefined)
     <> Sent (Respond 200 body)) /\
  (validate_linkPhone b = [] ->
   (linkPhone_findOne db b where_undefined = None ->
    fst (linkPhoneToAccount db b where_undefined)
    = Sent (Respond 404
              (error_body "Not Found" "User not found with this email."))) /\
   (linkPhone_findOne db b where_undefined <> None ->
    fst (linkPhoneToAccount db b where_undefined)
    = Threw "ReferenceError" "bcrypt is not defined")) /\
  (validate_phone (link_phone b) = [] ->
   validate_linkPhone
     {| link_phone := link_phone b; link_email := None;
        link_password := None |} = []).
Proof.
  split; [|split; [|split]].
  - unfold linkPhoneToAccount.
    destruct (validate_linkPhone b); [|done].
    by destruct (linkPhone_findOne db b where_undefined).
  - intros body. unfold linkPhoneToAccount.
    destruct (validate_linkPhone b); [|discriminate].
    by destruct (linkPhone_findOne db b where_undefined).
  - intros Hv. unfold linkPhoneToAccount. rewrite Hv.
    destruct (linkPhone_findOne db b where_undefined); split; done.
  - intros Hp. unfold validate_linkPhone. cbn [link_phone link_email
      link_password optional]. by rewrite Hp.
Qed.

(** Alice, with the right password, asks to link a phone; so does a
    request that names no email, when the lookup finds her. *)
Lemma linkPhoneToAccount_never_links_witness :
  @linkPhoneToAccount demo_validator db_alice
    {| link_phone := "9841234567"; link_email := Some "alice@x.com";
       link_password := Some "Passw0rd!" |} None
  = (Threw "ReferenceError" "bcrypt is not defined", db_alice) /\
  @linkPhoneToAccount demo_validator db_alice
    {| link_phone := "9841234567"; link_email := None;
       link_password := None |} (Some alice)
  = (Threw "ReferenceError" "bcrypt is not defined", db_alice).
Proof.
  split.
  - destruct (@linkPhoneToAccount_never_links demo_validator db_alice
                {| link_phone := "9841234567";
                   link_email := Some "alice@x.com";
                   link_password := Some "Passw0rd!" |} None)
      as (Hdb & _ & Hrun & _).
    destruct (Hrun eq_refl) as [_ Hthrow].
    rewrite (surjective_pairing (linkPhoneToAccount _ _ _)), Hdb.
    by rewrite Hthrow.
  - destruct (@linkPhoneToAccount_never_links demo_validator db_alice
                {| link_phone := "9841234567"; link_email := None;
                   link_password := None |} (Some alice))
      as (Hdb & _ & Hrun & _).
    destruct (Hrun eq_refl) as [_ Hthrow].
    rewrite (surjective_pairing (linkPhoneToAccount _ _ _)), Hdb.
    by rewrite Hthrow.
Defined.
